(** * weather-azmet: the hourly-data ingestion pipeline of [main.go]

    A shallow embedding of [generateUrl], [DownloadHourlyData],
    [ReadHourlyData], [WeatherDataDate] and [parseHourlyWeatherData],
    together with the parts of the Go standard library they call
    ([strconv], [time], [encoding/csv], [net/http]), the latter modelled
    from their documented behaviour.

    Conventions.
    - A Go [int] is taken to be 64 bits wide and is a [Z]; the
      arithmetic [main.go] does itself is wrapped with [Int64.wrap].
    - A Go function returning [(T, error)] returns a pair
      [T * option error]; [None] is [nil].
    - A run-time panic is the [Panicked] outcome. *)

From Stdlib Require Import ZArith List String Ascii Bool Lia.
From Stdlib Require Import Numbers.DecimalString Numbers.DecimalPos
  Numbers.DecimalZ.
Import ListNotations.

Local Open Scope string_scope.
Local Open Scope list_scope.
Local Open Scope Z_scope.

(** ** 64-bit integers *)

Module Int64.

Definition modulus : Z := 2 ^ 64.
Definition min_int : Z := - 2 ^ 63.
Definition max_int : Z := 2 ^ 63 - 1.

(** Two's complement reduction of a mathematical integer to [int64]. *)
Definition wrap (z : Z) : Z :=
  (z + 2 ^ 63) mod modulus - 2 ^ 63.

Definition in_range (z : Z) : bool :=
  (min_int <=? z) && (z <=? max_int).

Definition sub (a b : Z) : Z := wrap (a - b).
Definition mul (a b : Z) : Z := wrap (a * b).

End Int64.

(** ** Outcomes of Go calls *)

Inductive outcome (A : Type) : Type :=
| Returned (a : A)
| Panicked (msg : string).

Arguments Returned {A} a.
Arguments Panicked {A} msg.

(** ** strconv *)

Module strconv.

(** [strconv.Itoa]: decimal text, a leading [-] for negatives. *)
Definition Itoa (z : Z) : string :=
  NilZero.string_of_int (Z.to_int z).

Definition digit_of (c : ascii) : option Z :=
  let n := Z.of_nat (nat_of_ascii c) in
  if (48 <=? n) && (n <=? 57) then Some (n - 48) else None.

(** The digits of [s] read left to right onto [acc]; fails on the first
    byte that is not in ['0'..'9']. *)
Fixpoint digits (s : string) (acc : Z) : option Z :=
  match s with
  | EmptyString => Some acc
  | String c rest =>
      match digit_of c with
      | Some d => digits rest (acc * 10 + d)
      | None => None
      end
  end.

(** An optional sign followed by at least one decimal digit; no
    underscores, no spaces (base 10 is given explicitly by [Atoi]). *)
Definition signed (s : string) : option Z :=
  match s with
  | EmptyString => None
  | String c rest =>
      if Ascii.eqb c "-"%char then
        match rest with
        | EmptyString => None
        | _ => option_map Z.opp (digits rest 0)
        end
      else if Ascii.eqb c "+"%char then
        match rest with
        | EmptyString => None
        | _ => digits rest 0
        end
      else digits s 0
  end.

(** [strconv.Atoi]: a syntax error or a value outside [int] is an
    error ([None]). *)
Definition Atoi (s : string) : option Z :=
  match signed s with
  | Some z => if Int64.in_range z then Some z else None
  | None => None
  end.

End strconv.

(** ** Station registry *)

Definition WeatherStation := Z.

Definition Aguila : WeatherStation := 7.
Definition Bonita : WeatherStation := 9.
Definition Bowie : WeatherStation := 33.
Definition Buckeye : WeatherStation := 26.
Definition Coolidge : WeatherStation := 5.
Definition DesertRidge : WeatherStation := 27.
Definition Harquahala : WeatherStation := 23.
Definition Maricopa : WeatherStation := 6.
Definition Mohave : WeatherStation := 20.
Definition Mohave2 : WeatherStation := 28.
Definition FtMohave : WeatherStation := 40.
Definition Paloma : WeatherStation := 19.
Definition Parker : WeatherStation := 8.
Definition Parker2 : WeatherStation := 35.
Definition Payson : WeatherStation := 32.
Definition PhoenixGreenway : WeatherStation := 12.
Definition PhoenixEncanto : WeatherStation := 15.
Definition QueenCreek : WeatherStation := 22.
Definition Roll : WeatherStation := 24.
Definition Safford : WeatherStation := 4.
Definition Sahuarita : WeatherStation := 38.
Definition Salome : WeatherStation := 41.
Definition SanSimon : WeatherStation := 37.
Definition Tucson : WeatherStation := 1.
Definition Willcox : WeatherStation := 39.
Definition YumaNorth : WeatherStation := 14.
Definition YumaSouth : WeatherStation := 36.
Definition YumaValley : WeatherStation := 2.

(** The constants of the [const] block, in declaration order. *)
Definition registeredStations : list WeatherStation :=
  [ Aguila; Bonita; Bowie; Buckeye; Coolidge; DesertRidge; Harquahala;
    Maricopa; Mohave; Mohave2; FtMohave; Paloma; Parker; Parker2; Payson;
    PhoenixGreenway; PhoenixEncanto; QueenCreek; Roll; Safford; Sahuarita;
    Salome; SanSimon; Tucson; Willcox; YumaNorth; YumaSouth; YumaValley ].

(** ** generateUrl *)

Definition urlPrefix : string := "https://cals.arizona.edu/azmet/data/".
Definition urlSuffix : string := "rh.txt".

(** [s[len(s)-2:]]: the slice expression panics when [len(s) < 2]. *)
Definition lastTwo (s : string) : outcome string :=
  let n := String.length s in
  if Nat.ltb n 2
  then Panicked "slice bounds out of range"
  else Returned (String.substring (n - 2) 2 s).

(** [fmt.Sprintf("https://cals.arizona.edu/azmet/data/%d%srh.txt",
    station, yearStr[len(yearStr)-2:])]: the first verb takes the station,
    the second the year suffix. *)
Definition generateUrl (station : WeatherStation) (year : Z) : outcome string :=
  let yearStr := strconv.Itoa year in
  match lastTwo yearStr with
  | Panicked m => Panicked m
  | Returned yy =>
      Returned (urlPrefix ++ strconv.Itoa station ++ yy ++ urlSuffix)%string
  end.

(** Two decimal digits, zero padded, of a number in [0, 99]. *)
Definition pad2 (n : Z) : string :=
  if n <? 10 then ("0" ++ strconv.Itoa n)%string else strconv.Itoa n.

Fixpoint hasSuffix (s suffix : string) : bool :=
  if String.eqb s suffix then true
  else match s with
       | EmptyString => false
       | String _ rest => hasSuffix rest suffix
       end.

(** ** time *)

Module time.

(** An instant, in nanoseconds since 1970-01-01T00:00:00Z.  The
    location a [time.Time] carries only affects how it is printed. *)
Definition Time := Z.

(** [time.Duration]: an [int64] count of nanoseconds. *)
Definition Duration := Z.

Definition Nanosecond : Duration := 1.
Definition Second : Duration := 1000000000 * Nanosecond.
Definition Minute : Duration := 60 * Second.
Definition Hour : Duration := 60 * Minute.

(** A time zone: the offset, in seconds east of UTC, in force at a
    wall-clock reading (seconds since 1970-01-01T00:00:00 local). *)
Record Location : Type := mkLocation {
  zoneName : string;
  utcOffset : Z -> Z
}.

(** [time.FixedZone]: one offset at all times. *)
Definition FixedZone (name : string) (offset : Z) : Location :=
  mkLocation name (fun _ => offset).

Definition isLeap (year : Z) : bool :=
  (year mod 4 =? 0) && (negb (year mod 100 =? 0) || (year mod 400 =? 0)).

(** Days from 0001-01-01 to January 1 of [year], proleptic Gregorian. *)
Definition daysBeforeYear (year : Z) : Z :=
  let y := year - 1 in
  365 * y + y / 4 - y / 100 + y / 400.

(** Days from 1970-01-01 to January 1 of [year]. *)
Definition daysSinceEpoch (year : Z) : Z :=
  daysBeforeYear year - daysBeforeYear 1970.

(** Days of a non-leap year before the first of month [m+1]. *)
Definition daysBefore (m : Z) : Z :=
  nth (Z.to_nat m)
      [0; 31; 59; 90; 120; 151; 181; 212; 243; 273; 304; 334; 365] 0.

(** [norm hi lo base]: [lo] brought into [0, base), the carry moved
    to [hi]. *)
Definition norm (hi lo base : Z) : Z * Z :=
  (hi + lo / base, lo mod base).

(** [time.Date]: values outside their usual ranges are normalised. *)
Definition Date (year month day hour min sec nsec : Z) (loc : Location)
  : Time :=
  let '(year, m) := norm year (month - 1) 12 in
  let month := m + 1 in
  let '(sec, nsec) := norm sec nsec 1000000000 in
  let '(min, sec) := norm min sec 60 in
  let '(hour, min) := norm hour min 60 in
  let '(day, hour) := norm day hour 24 in
  let d := daysSinceEpoch year + daysBefore (month - 1)
           + (if isLeap year && (3 <=? month) then 1 else 0)
           + (day - 1) in
  let wall := d * 86400 + hour * 3600 + min * 60 + sec in
  let unix := wall - utcOffset loc wall in
  unix * 1000000000 + nsec.

(** [t.Add(d)]. *)
Definition Add (t : Time) (d : Duration) : Time := t + d.

(** [time.Time{}]: January 1, year 1, 00:00:00 UTC. *)
Definition zero : Time := -62135596800 * 1000000000.

(** [t] lies in calendar year [year] of [loc]. *)
Definition inYear (loc : Location) (year : Z) (t : Time) : Prop :=
  Date year 1 1 0 0 0 0 loc <= t < Date (year + 1) 1 1 0 0 0 0 loc.

End time.

(** The zone [America/Phoenix] as the tz database has defined it since
    1968: Mountain Standard Time, seven hours behind UTC, with no
    daylight-saving rule. *)
Definition MST : time.Location := time.FixedZone "MST" (-7 * 3600).

(** ** encoding/csv *)

Module csv.

(** What [Reader.Read] can report besides [io.EOF]. *)
Inductive ParseError : Type :=
| ErrFieldCount                (* "wrong number of fields" *)
| ErrSyntax (msg : string).    (* a quoting error, or a failure of the
                                  underlying reader *)

(** The next record of the input as the reader's lexer delivers it:
    the fields of one non-empty line, or the fields lexed up to an
    error together with that error. *)
Inductive rawRecord : Type :=
| Lexed (fields : list string)
| Broken (fields : list string) (e : ParseError).

(** The check [Reader.Read] makes on a lexed record against
    [FieldsPerRecord], whose new value is the second component: a
    positive value is the required field count, zero (the value
    [NewReader] sets) takes the count of the first record. *)
Definition readRecord (raw : rawRecord) (FieldsPerRecord : Z)
  : (list string * option ParseError) * Z :=
  let '(dst, err) :=
    match raw with
    | Lexed dst => (dst, None)
    | Broken dst e => (dst, Some e)
    end in
  let n := Z.of_nat (List.length dst) in
  if 0 <? FieldsPerRecord then
    match err with
    | None =>
        if negb (n =? FieldsPerRecord)
        then ((dst, Some ErrFieldCount), FieldsPerRecord)
        else ((dst, None), FieldsPerRecord)
    | Some e => ((dst, Some e), FieldsPerRecord)
    end
  else if FieldsPerRecord =? 0 then ((dst, err), n)
  else ((dst, err), FieldsPerRecord).

End csv.

(** ** Errors *)

Inductive error : Type :=
| ErrInvalidYear (year : Z)
| ErrFieldListLength (received : nat)
| ErrCannotSet (name : string)
| ErrParseInt (value : string)
| ErrParseFloat32 (value : string)
| ErrParseType (type : string)
| ErrTimezone
| ErrCsv (e : csv.ParseError)
| ErrHttp (msg : string).

(** The text of each error, as its format string builds it. *)
Definition Error (e : error) : string :=
  (match e with
   | ErrInvalidYear year =>
       "invalid year to fetch Phoenix weather data: " ++ strconv.Itoa year
   | ErrFieldListLength n =>
       "invalid field list length for hourly weather data, expecting 18 fields received "
       ++ strconv.Itoa (Z.of_nat n)
   | ErrCannotSet name => "field " ++ name ++ " cannot be set"
   | ErrParseInt value => "unable to parse int type for value: " ++ value
   | ErrParseFloat32 value =>
       "unable to parse float32 type for value: " ++ value
   | ErrParseType ty => "unable to parse type for field: " ++ ty
   | ErrTimezone => "unable to resolve timezone"
   | ErrCsv csv.ErrFieldCount => "wrong number of fields"
   | ErrCsv (csv.ErrSyntax msg) => msg
   | ErrHttp msg => msg
   end)%string.

(** ** reflect *)

Inductive Kind : Type := Int | Float32 | Struct.

Record StructField : Type := mkStructField {
  Name : string;
  FieldKind : Kind;
  TypeString : string
}.

(** The fields of [HourlyWeatherData], in declaration order. *)
Definition structFields : list StructField :=
  [ mkStructField "Year" Int "int";
    mkStructField "Day" Int "int";
    mkStructField "Hour" Int "int";
    mkStructField "AirTemperature" Float32 "float32";
    mkStructField "RelativeHumidity" Float32 "float32";
    mkStructField "VaporPressureDeficit" Float32 "float32";
    mkStructField "SolarRadiation" Float32 "float32";
    mkStructField "Precipitation" Float32 "float32";
    mkStructField "SoilTempFourInches" Float32 "float32";
    mkStructField "SoilTempTwentyInches" Float32 "float32";
    mkStructField "WindSpeedAverage" Float32 "float32";
    mkStructField "WindMagnitudeVector" Float32 "float32";
    mkStructField "WindDirectionVector" Float32 "float32";
    mkStructField "WindDirectionStdDev" Float32 "float32";
    mkStructField "WindSpeedMax" Float32 "float32";
    mkStructField "Evapotranspiration" Float32 "float32";
    mkStructField "VaporPressureActual" Float32 "float32";
    mkStructField "DewpointHourAverage" Float32 "float32";
    mkStructField "Time" Struct "time.Time" ].

(** A field reached through a pointer to the struct can be set when
    its name is exported, that is, starts with an upper-case letter. *)
Definition CanSet (f : StructField) : bool :=
  match Name f with
  | String c _ =>
      let n := nat_of_ascii c in (Nat.leb 65 n && Nat.leb n 90)%bool
  | EmptyString => false
  end.

(** ** An instance to run the pipeline on *)

(** Plain decimal literals, [[+-]digits[.digits]], read exactly as the
    pair of the digits' integer value and the number of digits after
    the point.  The theorems below hold for any reading of decimals;
    this one serves to evaluate the decoder on concrete rows. *)
Module Decimal.

Definition t : Type := Z * nat.

Definition zero : t := (0, O).

Fixpoint split_point (s : string) : string * option string :=
  match s with
  | EmptyString => (EmptyString, None)
  | String c rest =>
      if Ascii.eqb c "."%char then (EmptyString, Some rest)
      else let '(a, b) := split_point rest in (String c a, b)
  end.

Definition parse (s : string) : option t :=
  let '(sign, body) :=
    match s with
    | String c rest =>
        if Ascii.eqb c "-"%char then (-1, rest)
        else if Ascii.eqb c "+"%char then (1, rest)
        else (1, s)
    | EmptyString => (1, s)
    end in
  match split_point body with
  | (EmptyString, _) => None
  | (whole, None) =>
      option_map (fun n => (sign * n, O)) (strconv.digits whole 0)
  | (_, Some EmptyString) => None
  | (whole, Some frac) =>
      option_map (fun n => (sign * n, String.length frac))
        (strconv.digits (whole ++ frac)%string 0)
  end.

End Decimal.

(** A host whose time zone database knows [America/Phoenix]. *)
Definition tzdata (name : string) : option time.Location :=
  if String.eqb name "America/Phoenix" then Some MST else None.

(** A host without a time zone database. *)
Definition no_tzdata (name : string) : option time.Location := None.

(** A network on which every retrieval fails. *)
Definition offline (url : string) : list csv.rawRecord + string :=
  inr "dial tcp: no route to host".

(** Rows to run the decoder and the assembler on. *)
Definition row1 : list string :=
  ["2023"; "1"; "0"; "10.5"; "45"; "0.7"; "0"; "0"; "12.1"; "14.2";
   "1.5"; "1.4"; "270"; "12"; "3.1"; "0.01"; "0.6"; "-1.2"].

Definition row2 : list string :=
  ["2023"; "1"; "1"; "9.8"; "47"; "0.6"; "0"; "0"; "12.0"; "14.2";
   "1.1"; "1.0"; "265"; "9"; "2.4"; "0.01"; "0.6"; "-1.0"].

(** [row1] without its last field. *)
Definition row17 : list string := removelast row1.

(** [row1] with the text [x] as its first, respectively second,
    field. *)
Definition rowBadYear : list string := "x" :: tl row1.
Definition rowBadDay : list string := "2023" :: "x" :: tl (tl row1).

(** [row1] with the text [n/a] as its fourth field. *)
Definition rowBadTemp : list string :=
  ["2023"; "1"; "0"; "n/a"; "45"; "0.7"; "0"; "0"; "12.1"; "14.2";
   "1.5"; "1.4"; "270"; "12"; "3.1"; "0.01"; "0.6"; "-1.2"].

(** ** The pipeline *)

Section Pipeline.

(** [float32], its zero value, and [strconv.ParseFloat(s, 32)]
    followed by the conversion to [float32]; [None] is a syntax or
    range error. *)
Variable float32 : Type.
Variable float32_zero : float32.
Variable ParseFloat32 : string -> option float32.

(** [time.LoadLocation] against the host's time zone database. *)
Variable LoadLocation : string -> option time.Location.

(** [client.Get]: the body of the response as the CSV lexer will
    deliver it, or a transport error. *)
Variable Get : string -> list csv.rawRecord + string.

Record HourlyWeatherData : Type := mkHourlyWeatherData {
  Year : Z;
  Day : Z;
  Hour : Z;
  AirTemperature : float32;
  RelativeHumidity : float32;
  VaporPressureDeficit : float32;
  SolarRadiation : float32;
  Precipitation : float32;
  SoilTempFourInches : float32;
  SoilTempTwentyInches : float32;
  WindSpeedAverage : float32;
  WindMagnitudeVector : float32;
  WindDirectionVector : float32;
  WindDirectionStdDev : float32;
  WindSpeedMax : float32;
  Evapotranspiration : float32;
  VaporPressureActual : float32;
  DewpointHourAverage : float32;
  Time : time.Time
}.

(** [HourlyWeatherData{}] *)
Definition zeroData : HourlyWeatherData :=
  mkHourlyWeatherData 0 0 0
    float32_zero float32_zero float32_zero float32_zero float32_zero
    float32_zero float32_zero float32_zero float32_zero float32_zero
    float32_zero float32_zero float32_zero float32_zero float32_zero
    time.zero.

(** [s.Field(i).Set(reflect.ValueOf(val))] for an [int] value. *)
Definition setInt (i : nat) (v : Z) (d : HourlyWeatherData)
  : HourlyWeatherData :=
  match i with
  | 0%nat =>
   mkHourlyWeatherData
     v (Day d) (Hour d) (AirTemperature d)
     (RelativeHumidity d) (VaporPressureDeficit d)
     (SolarRadiation d) (Precipitation d)
     (SoilTempFourInches d) (SoilTempTwentyInches d)
     (WindSpeedAverage d) (WindMagnitudeVector d)
     (WindDirectionVector d) (WindDirectionStdDev d)
     (WindSpeedMax d) (Evapotranspiration d)
     (VaporPressureActual d) (DewpointHourAverage d) (Time d)
  | 1%nat =>
   mkHourlyWeatherData
     (Year d) v (Hour d) (AirTemperature d)
     (RelativeHumidity d) (VaporPressureDeficit d)
     (SolarRadiation d) (Precipitation d)
     (SoilTempFourInches d) (SoilTempTwentyInches d)
     (WindSpeedAverage d) (WindMagnitudeVector d)
     (WindDirectionVector d) (WindDirectionStdDev d)
     (WindSpeedMax d) (Evapotranspiration d)
     (VaporPressureActual d) (DewpointHourAverage d) (Time d)
  | 2%nat =>
   mkHourlyWeatherData
     (Year d) (Day d) v (AirTemperature d)
     (RelativeHumidity d) (VaporPressureDeficit d)
     (SolarRadiation d) (Precipitation d)
     (SoilTempFourInches d) (SoilTempTwentyInches d)
     (WindSpeedAverage d) (WindMagnitudeVector d)
     (WindDirectionVector d) (WindDirectionStdDev d)
     (WindSpeedMax d) (Evapotranspiration d)
     (VaporPressureActual d) (DewpointHourAverage d) (Time d)
  | _ => d
  end.

(** [s.Field(i).Set(reflect.ValueOf(float32(val)))]. *)
Definition setFloat32 (i : nat) (v : float32) (d : HourlyWeatherData)
  : HourlyWeatherData :=
  match i with
  | 3%nat =>
   mkHourlyWeatherData
     (Year d) (Day d) (Hour d) v (RelativeHumidity d)
     (VaporPressureDeficit d) (SolarRadiation d)
     (Precipitation d) (SoilTempFourInches d)
     (SoilTempTwentyInches d) (WindSpeedAverage d)
     (WindMagnitudeVector d) (WindDirectionVector d)
     (WindDirectionStdDev d) (WindSpeedMax d)
     (Evapotranspiration d) (VaporPressureActual d)
     (DewpointHourAverage d) (Time d)
  | 4%nat =>
   mkHourlyWeatherData
     (Year d) (Day d) (Hour d) (AirTemperature d) v
     (VaporPressureDeficit d) (SolarRadiation d)
     (Precipitation d) (SoilTempFourInches d)
     (SoilTempTwentyInches d) (WindSpeedAverage d)
     (WindMagnitudeVector d) (WindDirectionVector d)
     (WindDirectionStdDev d) (WindSpeedMax d)
     (Evapotranspiration d) (VaporPressureActual d)
     (DewpointHourAverage d) (Time d)
  | 5%nat =>
   mkHourlyWeatherData
     (Year d) (Day d) (Hour d) (AirTemperature d)
     (RelativeHumidity d) v (SolarRadiation d)
     (Precipitation d) (SoilTempFourInches d)
     (SoilTempTwentyInches d) (WindSpeedAverage d)
     (WindMagnitudeVector d) (WindDirectionVector d)
     (WindDirectionStdDev d) (WindSpeedMax d)
     (Evapotranspiration d) (VaporPressureActual d)
     (DewpointHourAverage d) (Time d)
  | 6%nat =>
   mkHourlyWeatherData
     (Year d) (Day d) (Hour d) (AirTemperature d)
     (RelativeHumidity d) (VaporPressureDeficit d) v
     (Precipitation d) (SoilTempFourInches d)
     (SoilTempTwentyInches d) (WindSpeedAverage d)
     (WindMagnitudeVector d) (WindDirectionVector d)
     (WindDirectionStdDev d) (WindSpeedMax d)
     (Evapotranspiration d) (VaporPressureActual d)
     (DewpointHourAverage d) (Time d)
  | 7%nat =>
   mkHourlyWeatherData
     (Year d) (Day d) (Hour d) (AirTemperature d)
     (RelativeHumidity d) (VaporPressureDeficit d)
     (SolarRadiation d) v (SoilTempFourInches d)
     (SoilTempTwentyInches d) (WindSpeedAverage d)
     (WindMagnitudeVector d) (WindDirectionVector d)
     (WindDirectionStdDev d) (WindSpeedMax d)
     (Evapotranspiration d) (VaporPressureActual d)
     (DewpointHourAverage d) (Time d)
  | 8%nat =>
   mkHourlyWeatherData
     (Year d) (Day d) (Hour d) (AirTemperature d)
     (RelativeHumidity d) (VaporPressureDeficit d)
     (SolarRadiation d) (Precipitation d) v
     (SoilTempTwentyInches d) (WindSpeedAverage d)
     (WindMagnitudeVector d) (WindDirectionVector d)
     (WindDirectionStdDev d) (WindSpeedMax d)
     (Evapotranspiration d) (VaporPressureActual d)
     (DewpointHourAverage d) (Time d)
  | 9%nat =>
   mkHourlyWeatherData
     (Year d) (Day d) (Hour d) (AirTemperature d)
     (RelativeHumidity d) (VaporPressureDeficit d)
     (SolarRadiation d) (Precipitation d)
     (SoilTempFourInches d) v (WindSpeedAverage d)
     (WindMagnitudeVector d) (WindDirectionVector d)
     (WindDirectionStdDev d) (WindSpeedMax d)
     (Evapotranspiration d) (VaporPressureActual d)
     (DewpointHourAverage d) (Time d)
  | 10%nat =>
   mkHourlyWeatherData
     (Year d) (Day d) (Hour d) (AirTemperature d)
     (RelativeHumidity d) (VaporPressureDeficit d)
     (SolarRadiation d) (Precipitation d)
     (SoilTempFourInches d) (SoilTempTwentyInches d) v
     (WindMagnitudeVector d) (WindDirectionVector d)
     (WindDirectionStdDev d) (WindSpeedMax d)
     (Evapotranspiration d) (VaporPressureActual d)
     (DewpointHourAverage d) (Time d)
  | 11%nat =>
   mkHourlyWeatherData
     (Year d) (Day d) (Hour d) (AirTemperature d)
     (RelativeHumidity d) (VaporPressureDeficit d)
     (SolarRadiation d) (Precipitation d)
     (SoilTempFourInches d) (SoilTempTwentyInches d)
     (WindSpeedAverage d) v (WindDirectionVector d)
     (WindDirectionStdDev d) (WindSpeedMax d)
     (Evapotranspiration d) (VaporPressureActual d)
     (DewpointHourAverage d) (Time d)
  | 12%nat =>
   mkHourlyWeatherData
     (Year d) (Day d) (Hour d) (AirTemperature d)
     (RelativeHumidity d) (VaporPressureDeficit d)
     (SolarRadiation d) (Precipitation d)
     (SoilTempFourInches d) (SoilTempTwentyInches d)
     (WindSpeedAverage d) (WindMagnitudeVector d) v
     (WindDirectionStdDev d) (WindSpeedMax d)
     (Evapotranspiration d) (VaporPressureActual d)
     (DewpointHourAverage d) (Time d)
  | 13%nat =>
   mkHourlyWeatherData
     (Year d) (Day d) (Hour d) (AirTemperature d)
     (RelativeHumidity d) (VaporPressureDeficit d)
     (SolarRadiation d) (Precipitation d)
     (SoilTempFourInches d) (SoilTempTwentyInches d)
     (WindSpeedAverage d) (WindMagnitudeVector d)
     (WindDirectionVector d) v (WindSpeedMax d)
     (Evapotranspiration d) (VaporPressureActual d)
     (DewpointHourAverage d) (Time d)
  | 14%nat =>
   mkHourlyWeatherData
     (Year d) (Day d) (Hour d) (AirTemperature d)
     (RelativeHumidity d) (VaporPressureDeficit d)
     (SolarRadiation d) (Precipitation d)
     (SoilTempFourInches d) (SoilTempTwentyInches d)
     (WindSpeedAverage d) (WindMagnitudeVector d)
     (WindDirectionVector d) (WindDirectionStdDev d) v
     (Evapotranspiration d) (VaporPressureActual d)
     (DewpointHourAverage d) (Time d)
  | 15%nat =>
   mkHourlyWeatherData
     (Year d) (Day d) (Hour d) (AirTemperature d)
     (RelativeHumidity d) (VaporPressureDeficit d)
     (SolarRadiation d) (Precipitation d)
     (SoilTempFourInches d) (SoilTempTwentyInches d)
     (WindSpeedAverage d) (WindMagnitudeVector d)
     (WindDirectionVector d) (WindDirectionStdDev d)
     (WindSpeedMax d) v (VaporPressureActual d)
     (DewpointHourAverage d) (Time d)
  | 16%nat =>
   mkHourlyWeatherData
     (Year d) (Day d) (Hour d) (AirTemperature d)
     (RelativeHumidity d) (VaporPressureDeficit d)
     (SolarRadiation d) (Precipitation d)
     (SoilTempFourInches d) (SoilTempTwentyInches d)
     (WindSpeedAverage d) (WindMagnitudeVector d)
     (WindDirectionVector d) (WindDirectionStdDev d)
     (WindSpeedMax d) (Evapotranspiration d) v
     (DewpointHourAverage d) (Time d)
  | 17%nat =>
   mkHourlyWeatherData
     (Year d) (Day d) (Hour d) (AirTemperature d)
     (RelativeHumidity d) (VaporPressureDeficit d)
     (SolarRadiation d) (Precipitation d)
     (SoilTempFourInches d) (SoilTempTwentyInches d)
     (WindSpeedAverage d) (WindMagnitudeVector d)
     (WindDirectionVector d) (WindDirectionStdDev d)
     (WindSpeedMax d) (Evapotranspiration d)
     (VaporPressureActual d) v (Time d)
  | _ => d
  end.

(** [rec.Time = date] *)
Definition setTime (v : time.Time) (d : HourlyWeatherData)
  : HourlyWeatherData :=
   mkHourlyWeatherData
     (Year d) (Day d) (Hour d) (AirTemperature d)
     (RelativeHumidity d) (VaporPressureDeficit d)
     (SolarRadiation d) (Precipitation d)
     (SoilTempFourInches d) (SoilTempTwentyInches d)
     (WindSpeedAverage d) (WindMagnitudeVector d)
     (WindDirectionVector d) (WindDirectionStdDev d)
     (WindSpeedMax d) (Evapotranspiration d)
     (VaporPressureActual d) (DewpointHourAverage d) v.

(** *** parseHourlyWeatherData *)

(** A call of [strconv.Atoi] or [strconv.ParseFloat] made by the
    decoder: the index of the field and the kind asked for. *)
Definition coercion : Type := nat * Kind.

(** The loop [for i := 0; i < 18; i++], with [remaining = 18 - i]
    iterations to go; [trace] collects the coercions made so far. *)
Fixpoint parseFields (remaining i : nat) (record : list string)
  (data : HourlyWeatherData) (trace : list coercion)
  : (HourlyWeatherData * option error) * list coercion :=
  match remaining with
  | O => ((data, None), trace)
  | S remaining' =>
      let field := nth i structFields (mkStructField "" Struct "") in
      if negb (CanSet field)
      then ((zeroData, Some (ErrCannotSet (Name field))), trace)
      else
        let s := nth i record EmptyString in
        match FieldKind field with
        | Int =>
            match strconv.Atoi s with
            | None =>
                ((zeroData, Some (ErrParseInt s)), trace ++ [(i, Int)])
            | Some val =>
                parseFields remaining' (S i) record (setInt i val data)
                  (trace ++ [(i, Int)])
            end
        | Float32 =>
            match ParseFloat32 s with
            | None =>
                ((zeroData, Some (ErrParseFloat32 s)),
                 trace ++ [(i, Float32)])
            | Some val =>
                parseFields remaining' (S i) record (setFloat32 i val data)
                  (trace ++ [(i, Float32)])
            end
        | Struct => ((zeroData, Some (ErrParseType (TypeString field))), trace)
        end
  end.

(** The body of [parseHourlyWeatherData], with the coercions it made. *)
Definition parseTraced (record : list string)
  : (HourlyWeatherData * option error) * list coercion :=
  if negb (Nat.eqb (List.length record) 18)
  then ((zeroData, Some (ErrFieldListLength (List.length record))), [])
  else parseFields 18 0 record zeroData [].

Definition parseHourlyWeatherData (record : list string)
  : HourlyWeatherData * option error :=
  fst (parseTraced record).

Definition coercions (record : list string) : list coercion :=
  snd (parseTraced record).

(** *** WeatherDataDate *)

Definition WeatherDataDate (data : HourlyWeatherData)
  : time.Time * option error :=
  match LoadLocation "America/Phoenix" with
  | None => (time.zero, Some ErrTimezone)
  | Some tz =>
      let firstOfYear := time.Date (Year data) 1 1 (Hour data) 0 0 0 tz in
      let val :=
        time.Add firstOfYear
          (Int64.mul (time.Hour * 24) (Int64.sub (Day data) 1)) in
      (val, None)
  end.

(** *** ReadHourlyData *)

(** The [for] loop over [r.Read()]: [pending] is what is left of the
    input, [FieldsPerRecord] the reader's state, [data] the slice
    built so far.  The end of [pending] is [io.EOF]. *)
Fixpoint readLoop (pending : list csv.rawRecord) (FieldsPerRecord : Z)
  (data : list HourlyWeatherData)
  : list HourlyWeatherData * option error :=
  match pending with
  | [] => (data, None)
  | raw :: pending' =>
      let '((record, err), FieldsPerRecord') :=
        csv.readRecord raw FieldsPerRecord in
      match err with
      | Some e => ([], Some (ErrCsv e))
      | None =>
          let '(rec, err) := parseHourlyWeatherData record in
          match err with
          | Some e => ([], Some e)
          | None =>
              let '(date, err) := WeatherDataDate rec in
              match err with
              | Some e => ([], Some e)
              | None =>
                  readLoop pending' FieldsPerRecord'
                    (data ++ [setTime date rec])
              end
          end
      end
  end.

(** [csv.NewReader] leaves [FieldsPerRecord] at zero. *)
Definition ReadHourlyData (reader : list csv.rawRecord)
  : list HourlyWeatherData * option error :=
  readLoop reader 0 [].

(** *** DownloadHourlyData *)

(** What a call has done so far: the addresses it built and the
    retrievals it attempted, oldest first. *)
Inductive event : Type :=
| UrlBuilt (url : string)
| Requested (url : string).

Definition DownloadHourlyData (station : WeatherStation) (year : Z)
  (log : list event)
  : outcome (list HourlyWeatherData * option error) * list event :=
  if (year <? 2003) || (2099 <? year)
  then (Returned ([], Some (ErrInvalidYear year)), log)
  else
    match generateUrl station year with
    | Panicked m => (Panicked m, log)
    | Returned url =>
        let log := log ++ [UrlBuilt url] in
        match Get url with
        | inr msg => (Returned ([], Some (ErrHttp msg)), log ++ [Requested url])
        | inl body => (Returned (ReadHourlyData body), log ++ [Requested url])
        end
    end.

(** The error the decoder or the resolver raises on [record] when the
    reader hands it over, if any. *)
Definition rowFailure (record : list string) : option error :=
  let '(rec, err) := parseHourlyWeatherData record in
  match err with
  | Some e => Some e
  | None => snd (WeatherDataDate rec)
  end.


(** *** Vocabulary of the specification *)

(** A record holding [year], [dayOfYear] and [hour] and nothing else. *)
Definition observation (year dayOfYear hour : Z) : HourlyWeatherData :=
  setInt 2 hour (setInt 1 dayOfYear (setInt 0 year zeroData)).

(** [resolve(year, dayOfYear, hour)]. *)
Definition resolve (year dayOfYear hour : Z) : time.Time * option error :=
  WeatherDataDate (observation year dayOfYear hour).

(** The text [s] parses as the type of the [i]-th struct field. *)
Definition parses (i : nat) (s : string) : bool :=
  match FieldKind (nth i structFields (mkStructField "" Struct "")) with
  | Int => match strconv.Atoi s with Some _ => true | None => false end
  | Float32 =>
      match ParseFloat32 s with Some _ => true | None => false end
  | Struct => false
  end.

(** The positions (from 0) of the fields of [record] that do not parse
    as their designated type, in increasing order. *)
Definition offending (record : list string) : list nat :=
  filter (fun i => negb (parses i (nth i record EmptyString))) (seq 0 18).

(** The error a field of text [s] at position [i] is rejected with. *)
Definition typeError (i : nat) (s : string) : error :=
  match FieldKind (nth i structFields (mkStructField "" Struct "")) with
  | Int => ErrParseInt s
  | _ => ErrParseFloat32 s
  end.

(** A row of 18 correctly typed fields. *)
Definition wellFormed (record : list string) : Prop :=
  List.length record = 18%nat /\ offending record = [].

(** The record [ReadHourlyData] makes of a well-formed row. *)
Definition assembled (record : list string) : HourlyWeatherData :=
  let rec := fst (parseHourlyWeatherData record) in
  setTime (fst (WeatherDataDate rec)) rec.

(** Number of days of calendar year [year]. *)
Definition daysIn (year : Z) : Z :=
  if time.isLeap year then 366 else 365.

(** The coercion the decoder makes at position [i]. *)
Definition coercionAt (i : nat) : coercion :=
  (i, if Nat.ltb i 3 then Int else Float32).

(** The day-of-year of day [day] of month [month] of [year]. *)
Definition ordinalDay (year month day : Z) : Z :=
  time.daysBefore (month - 1)
  + (if time.isLeap year && (3 <=? month) then 1 else 0) + day.

(** *** main *)

(** How [main] ends: through [log.Fatal], or after handing the dataset
    to [fmt.Println]. *)
Inductive ending : Type :=
| Fatal (msg : string)
| Printed (data : list HourlyWeatherData).

(** [main] from [flag.Parse] on.  [yearFlag] and [stationFlag] are the
    values given with [-y] and [-s], if any; [currentYear] is
    [time.Now().Year()], the default of [-y], and [PhoenixGreenway] is
    the default of [-s]. *)
Definition main (currentYear : Z) (yearFlag stationFlag : option Z)
  (log : list event) : outcome ending * list event :=
  let year := match yearFlag with Some y => y | None => currentYear end in
  let station :=
    match stationFlag with Some s => s | None => PhoenixGreenway end in
  match DownloadHourlyData station year log with
  | (Panicked m, log) => (Panicked m, log)
  | (Returned (data, err), log) =>
      match err with
      | Some _ => (Returned (Fatal "Error retrieving weather data."), log)
      | None => (Returned (Printed data), log)
      end
  end.

(** *** The source locator *)

(** For the years the entry point lets through, the last two bytes of
    the year's decimal text are its last two digits. *)
Lemma lastTwo_year (year : Z) :
  2003 <= year <= 2099 ->
  lastTwo (strconv.Itoa year) = Returned (pad2 (year mod 100)).
Proof.
  intros Hyear.
  assert (Hk : exists k, (k < 97)%nat /\ year = 2003 + Z.of_nat k)
    by (exists (Z.to_nat (year - 2003)); lia).
  destruct Hk as (k & Hk & ->).
  do 97 (destruct k as [|k]; [vm_compute; reflexivity|]).
  lia.
Qed.

(** C1 (as amended): for every station and every year from 2003 to
    2099 the address is the provider's path followed by the station's
    code in decimal, then the two-digit year suffix ([year mod 100],
    zero padded), then [rh.txt]: the station code comes before the year
    suffix.  Station 12 and year 2024 give an address ending in
    [1224rh.txt]. *)
Theorem generateUrl_station_then_year (station : WeatherStation) (year : Z) :
  2003 <= year <= 2099 ->
  generateUrl station year
  = Returned (urlPrefix ++ strconv.Itoa station ++ pad2 (year mod 100)
              ++ urlSuffix)%string
  /\ generateUrl PhoenixGreenway 2024
     = Returned "https://cals.arizona.edu/azmet/data/1224rh.txt".
Proof.
  intros Hyear. split; [|reflexivity].
  unfold generateUrl. rewrite lastTwo_year by exact Hyear. reflexivity.
Qed.

(** *** The decoder *)

Lemma field_info (i : nat) :
  (i < 18)%nat ->
  CanSet (nth i structFields (mkStructField "" Struct "")) = true
  /\ FieldKind (nth i structFields (mkStructField "" Struct ""))
     = if Nat.ltb i 3 then Int else Float32.
Proof.
  intros Hi.
  do 18 (destruct i as [|i]; [split; reflexivity|]).
  lia.
Qed.

(** C5: a row whose field count is not 18 is rejected with the shape
    error, which reports the count received, and no field is handed
    to [strconv]. *)
Theorem parseHourlyWeatherData_shape (record : list string) :
  List.length record <> 18%nat ->
  parseHourlyWeatherData record
    = (zeroData, Some (ErrFieldListLength (List.length record)))
  /\ coercions record = [].
Proof.
  intros Hlen.
  unfold parseHourlyWeatherData, coercions, parseTraced.
  apply Nat.eqb_neq in Hlen. rewrite Hlen. simpl. split; reflexivity.
Qed.

Arguments strconv.Atoi : simpl never.

Ltac next_coercion H :=
  match type of H with
  | context [strconv.Atoi ?s] =>
      let E := fresh "Hint" in
      destruct (strconv.Atoi s) eqn:E; [|discriminate H]
  | context [ParseFloat32 ?s] =>
      let E := fresh "Hfloat" in
      destruct (ParseFloat32 s) eqn:E; [|discriminate H]
  end.

(** C7: a row that decodes has 18 fields; the record's [Year], [Day]
    and [Hour] are fields 1 to 3 read by [strconv.Atoi], its fifteen
    measurements are fields 4 to 18 read by [strconv.ParseFloat], each
    struct field taking the text at its own position in declaration
    order, and [Time] is left at its zero value. *)
Theorem parseHourlyWeatherData_positional
  (record : list string) (d : HourlyWeatherData) :
  parseHourlyWeatherData record = (d, None) ->
  List.length record = 18%nat
  /\ strconv.Atoi (nth 0 record EmptyString) = Some (Year d)
  /\ strconv.Atoi (nth 1 record EmptyString) = Some (Day d)
  /\ strconv.Atoi (nth 2 record EmptyString) = Some (Hour d)
  /\ ParseFloat32 (nth 3 record EmptyString) = Some (AirTemperature d)
  /\ ParseFloat32 (nth 4 record EmptyString) = Some (RelativeHumidity d)
  /\ ParseFloat32 (nth 5 record EmptyString) = Some (VaporPressureDeficit d)
  /\ ParseFloat32 (nth 6 record EmptyString) = Some (SolarRadiation d)
  /\ ParseFloat32 (nth 7 record EmptyString) = Some (Precipitation d)
  /\ ParseFloat32 (nth 8 record EmptyString) = Some (SoilTempFourInches d)
  /\ ParseFloat32 (nth 9 record EmptyString) = Some (SoilTempTwentyInches d)
  /\ ParseFloat32 (nth 10 record EmptyString) = Some (WindSpeedAverage d)
  /\ ParseFloat32 (nth 11 record EmptyString) = Some (WindMagnitudeVector d)
  /\ ParseFloat32 (nth 12 record EmptyString) = Some (WindDirectionVector d)
  /\ ParseFloat32 (nth 13 record EmptyString) = Some (WindDirectionStdDev d)
  /\ ParseFloat32 (nth 14 record EmptyString) = Some (WindSpeedMax d)
  /\ ParseFloat32 (nth 15 record EmptyString) = Some (Evapotranspiration d)
  /\ ParseFloat32 (nth 16 record EmptyString) = Some (VaporPressureActual d)
  /\ ParseFloat32 (nth 17 record EmptyString) = Some (DewpointHourAverage d)
  /\ Time d = time.zero.
Proof.
  unfold parseHourlyWeatherData, parseTraced.
  destruct (Nat.eqb (List.length record) 18) eqn:Hlen; simpl negb; cbv iota;
    [|discriminate].
  apply Nat.eqb_eq in Hlen. intros H.
  split; [exact Hlen|].
  do 18 (destruct record as [|? record]; [discriminate Hlen|]).
  destruct record; [|discriminate Hlen].
  simpl in H.
  do 18 (next_coercion H; simpl in H).
  injection H as <-. simpl.
  repeat split; assumption.
Qed.

(** Reading [filter] over an interval: its head is the least element
    kept. *)
Lemma filter_seq_head (p : nat -> bool) (n a j : nat) (rest : list nat) :
  filter p (seq a n) = j :: rest ->
  (a <= j < a + n)%nat /\ p j = true
  /\ forall k, (a <= k < j)%nat -> p k = false.
Proof.
  revert a. induction n as [|n IH]; intros a H; simpl in H.
  - discriminate.
  - destruct (p a) eqn:Hpa.
    + injection H as <- _. repeat split; try lia. exact Hpa.
    + apply IH in H. destruct H as (Hr & Hj & Hk).
      repeat split; try lia; [exact Hj|].
      intros k Hk'. destruct (Nat.eq_dec k a) as [->|Hne]; [exact Hpa|].
      apply Hk. lia.
Qed.

Lemma filter_seq_nil (p : nat -> bool) (n a : nat) :
  filter p (seq a n) = [] ->
  forall k, (a <= k < a + n)%nat -> p k = false.
Proof.
  revert a. induction n as [|n IH]; intros a H k Hk; simpl in H.
  - lia.
  - destruct (p a) eqn:Hpa; [discriminate|].
    destruct (Nat.eq_dec k a) as [->|Hne]; [exact Hpa|].
    apply (IH (S a)); [exact H | lia].
Qed.

Lemma parses_Int (i : nat) (s : string) :
  (i < 3)%nat ->
  parses i s = match strconv.Atoi s with Some _ => true | None => false end.
Proof.
  intros Hi. unfold parses.
  do 3 (destruct i as [|i]; [reflexivity|]). lia.
Qed.

Lemma parses_Float32 (i : nat) (s : string) :
  (3 <= i < 18)%nat ->
  parses i s = match ParseFloat32 s with Some _ => true | None => false end.
Proof.
  intros Hi. unfold parses.
  do 3 (destruct i as [|i]; [lia|]).
  do 15 (destruct i as [|i]; [reflexivity|]). lia.
Qed.

(** One turn of the decoder's loop at a position below 18. *)
Lemma parseFields_step (remaining i : nat) (record : list string)
  (data : HourlyWeatherData) (trace : list coercion) :
  (i < 18)%nat ->
  parseFields (S remaining) i record data trace
  = let s := nth i record EmptyString in
    if Nat.ltb i 3 then
      match strconv.Atoi s with
      | None => ((zeroData, Some (ErrParseInt s)), trace ++ [(i, Int)])
      | Some val =>
          parseFields remaining (S i) record (setInt i val data)
            (trace ++ [(i, Int)])
      end
    else
      match ParseFloat32 s with
      | None =>
          ((zeroData, Some (ErrParseFloat32 s)), trace ++ [(i, Float32)])
      | Some val =>
          parseFields remaining (S i) record (setFloat32 i val data)
            (trace ++ [(i, Float32)])
      end.
Proof.
  intros Hi. destruct (field_info i Hi) as [Hset Hkind].
  cbn [parseFields]. rewrite Hset, Hkind. cbn [negb].
  destruct (Nat.ltb i 3); reflexivity.
Qed.

(** The loop stops at the first position whose text does not parse. *)
Lemma parseFields_first_bad (record : list string) (j : nat) :
  (j < 18)%nat ->
  parses j (nth j record EmptyString) = false ->
  forall remaining i data trace,
    (i + remaining = 18)%nat -> (i <= j)%nat ->
    (forall k, (i <= k < j)%nat ->
               parses k (nth k record EmptyString) = true) ->
    fst (parseFields remaining i record data trace)
    = (zeroData, Some (typeError j (nth j record EmptyString))).
Proof.
  intros Hj Hbad.
  induction remaining as [|remaining IH]; intros i data trace Hsum Hij Hgood.
  - lia.
  - rewrite parseFields_step by lia. cbv zeta.
    destruct (Nat.eq_dec i j) as [->|Hne].
    + unfold typeError. destruct (field_info j Hj) as [_ ->].
      destruct (Nat.ltb j 3) eqn:Hlt.
      * rewrite parses_Int in Hbad by (apply Nat.ltb_lt; exact Hlt).
        destruct (strconv.Atoi (nth j record EmptyString));
          [discriminate|reflexivity].
      * apply Nat.ltb_ge in Hlt.
        rewrite parses_Float32 in Hbad by lia.
        destruct (ParseFloat32 (nth j record EmptyString));
          [discriminate|reflexivity].
    + assert (Hi : parses i (nth i record EmptyString) = true)
        by (apply Hgood; lia).
      destruct (Nat.ltb i 3) eqn:Hlt.
      * rewrite parses_Int in Hi by (apply Nat.ltb_lt; exact Hlt).
        destruct (strconv.Atoi (nth i record EmptyString)); [|discriminate].
        apply IH; try lia. intros k Hk. apply Hgood. lia.
      * apply Nat.ltb_ge in Hlt.
        rewrite parses_Float32 in Hi by lia.
        destruct (ParseFloat32 (nth i record EmptyString)); [|discriminate].
        apply IH; try lia. intros k Hk. apply Hgood. lia.
Qed.

(** The loop runs to the end when every remaining text parses. *)
Lemma parseFields_all_good (record : list string) :
  forall remaining i data trace,
    (i + remaining = 18)%nat ->
    (forall k, (i <= k < 18)%nat ->
               parses k (nth k record EmptyString) = true) ->
    exists d, fst (parseFields remaining i record data trace) = (d, None).
Proof.
  induction remaining as [|remaining IH]; intros i data trace Hsum Hgood.
  - exists data. reflexivity.
  - rewrite parseFields_step by lia. cbv zeta.
    assert (Hi : parses i (nth i record EmptyString) = true)
      by (apply Hgood; lia).
    destruct (Nat.ltb i 3) eqn:Hlt.
    + rewrite parses_Int in Hi by (apply Nat.ltb_lt; exact Hlt).
      destruct (strconv.Atoi (nth i record EmptyString)); [|discriminate].
      apply IH; try lia. intros k Hk. apply Hgood. lia.
    + apply Nat.ltb_ge in Hlt.
      rewrite parses_Float32 in Hi by lia.
      destruct (ParseFloat32 (nth i record EmptyString)); [|discriminate].
      apply IH; try lia. intros k Hk. apply Hgood. lia.
Qed.

(** C4 (as amended): an 18-field row with a field that does not parse
    as its designated type is rejected with the error of the first such
    field, [ErrParseInt] for fields 1 to 3 and [ErrParseFloat32] for
    fields 4 to 18, which carries the text of that field (not its name
    or position); the record returned with it is the zero record. *)
Theorem parseHourlyWeatherData_type_error
  (record : list string) (j : nat) (later : list nat) :
  List.length record = 18%nat ->
  offending record = j :: later ->
  parseHourlyWeatherData record
  = (zeroData, Some (typeError j (nth j record EmptyString)))
  /\ typeError j (nth j record EmptyString)
     = (if Nat.ltb j 3 then ErrParseInt (nth j record EmptyString)
        else ErrParseFloat32 (nth j record EmptyString)).
Proof.
  intros Hlen Hoff.
  apply filter_seq_head in Hoff. destruct Hoff as (Hj & Hbad & Hgood).
  apply negb_true_iff in Hbad.
  split.
  - unfold parseHourlyWeatherData, parseTraced.
    rewrite Hlen. cbn [Nat.eqb negb].
    apply parseFields_first_bad; try lia; try assumption.
    intros k Hk. specialize (Hgood k Hk).
    apply negb_false_iff in Hgood. exact Hgood.
  - unfold typeError. destruct (field_info j) as [_ ->]; [lia|].
    destruct (Nat.ltb j 3); reflexivity.
Qed.

(** A well-formed row decodes. *)
Lemma parseHourlyWeatherData_wellFormed (record : list string) :
  wellFormed record ->
  exists d, parseHourlyWeatherData record = (d, None).
Proof.
  intros [Hlen Hoff].
  unfold parseHourlyWeatherData, parseTraced.
  rewrite Hlen. cbn [Nat.eqb negb].
  apply parseFields_all_good; [reflexivity|].
  intros k Hk.
  pose proof (filter_seq_nil _ _ _ Hoff k) as H.
  apply negb_false_iff. apply H. lia.
Qed.

(** *** The resolver *)

Lemma wrap_in_range (z : Z) :
  Int64.min_int <= z <= Int64.max_int -> Int64.wrap z = z.
Proof.
  unfold Int64.wrap, Int64.min_int, Int64.max_int, Int64.modulus.
  intros H. rewrite Z.mod_small; lia.
Qed.

(** The 24-hour offset of day [day] fits a [time.Duration] for day
    numbers up to 106752 in absolute value, give or take one. *)
Lemma day_offset_exact (day : Z) :
  -106750 <= day <= 106752 ->
  Int64.mul (time.Hour * 24) (Int64.sub day 1) = (day - 1) * (24 * time.Hour).
Proof.
  intros H. unfold Int64.mul, Int64.sub.
  rewrite (wrap_in_range (day - 1))
    by (unfold Int64.min_int, Int64.max_int; lia).
  rewrite wrap_in_range.
  - unfold time.Hour, time.Minute, time.Second, time.Nanosecond. lia.
  - unfold time.Hour, time.Minute, time.Second, time.Nanosecond,
      Int64.min_int, Int64.max_int. lia.
Qed.

(** [time.Date] on January 1: the hour is the only field that moves. *)
Lemma Date_first_of_year (year hour : Z) (tz : time.Location) :
  time.Date year 1 1 hour 0 0 0 tz
  = (let wall := time.daysSinceEpoch year * 86400 + hour * 3600 in
     (wall - time.utcOffset tz wall) * 1000000000).
Proof.
  unfold time.Date, time.norm.
  replace (1 - 1) with 0 by reflexivity.
  change (0 / 12) with 0. change (0 mod 12) with 0.
  change (0 / 1000000000) with 0. change (0 mod 1000000000) with 0.
  change (0 + 0) with 0.
  change (0 / 60) with 0. change (0 mod 60) with 0.
  change (0 + 0) with 0.
  change (0 / 60) with 0. change (0 mod 60) with 0.
  cbv zeta. rewrite !Z.add_0_r.
  change (time.daysBefore 0) with 0.
  change (3 <=? 1) with false. rewrite andb_false_r.
  pose proof (Z.div_mod hour 24 ltac:(lia)) as Hdm.
  match goal with
  | |- (?w - time.utcOffset tz ?w) * _ = _ =>
      replace w with (time.daysSinceEpoch year * 86400 + hour * 3600) by lia
  end.
  reflexivity.
Qed.

(** Consecutive years are [daysIn] days apart. *)
Lemma daysSinceEpoch_succ (year : Z) :
  time.daysSinceEpoch (year + 1) = time.daysSinceEpoch year + daysIn year.
Proof.
  unfold time.daysSinceEpoch, time.daysBeforeYear, daysIn, time.isLeap.
  replace (year + 1 - 1) with year by lia.
  destruct (year mod 4 =? 0) eqn:H4;
    destruct (year mod 100 =? 0) eqn:H100;
    destruct (year mod 400 =? 0) eqn:H400; cbn [andb orb negb];
    rewrite ?Z.eqb_eq, ?Z.eqb_neq in *;
    Z.div_mod_to_equations; lia.
Qed.

Lemma WeatherDataDate_loaded (data : HourlyWeatherData) (tz : time.Location) :
  LoadLocation "America/Phoenix" = Some tz ->
  WeatherDataDate data
  = (time.Add (time.Date (Year data) 1 1 (Hour data) 0 0 0 tz)
       (Int64.mul (time.Hour * 24) (Int64.sub (Day data) 1)), None).
Proof.
  intros Htz. unfold WeatherDataDate. rewrite Htz. reflexivity.
Qed.

(** The resolver reads [Year], [Day] and [Hour] only. *)
Lemma WeatherDataDate_setTime (t : time.Time) (data : HourlyWeatherData) :
  WeatherDataDate (setTime t data) = WeatherDataDate data.
Proof. reflexivity. Qed.

(** Inside the range where the day offset fits a [time.Duration] the
    resolver adds whole days to the first of the year. *)
Lemma WeatherDataDate_exact (tz : time.Location) (data : HourlyWeatherData) :
  LoadLocation "America/Phoenix" = Some tz ->
  -106750 <= Day data <= 106752 ->
  WeatherDataDate data
  = (time.Add (time.Date (Year data) 1 1 (Hour data) 0 0 0 tz)
       ((Day data - 1) * (24 * time.Hour)), None).
Proof.
  intros Htz Hday.
  rewrite (WeatherDataDate_loaded data tz Htz).
  rewrite day_offset_exact by exact Hday. reflexivity.
Qed.

Lemma WeatherDataDate_fixed_zone (name : string) (offset : Z)
  (data : HourlyWeatherData) :
  LoadLocation "America/Phoenix" = Some (time.FixedZone name offset) ->
  -106750 <= Day data <= 106752 ->
  WeatherDataDate data
  = (((time.daysSinceEpoch (Year data) + (Day data - 1)) * 86400
      + Hour data * 3600 - offset) * 1000000000, None).
Proof.
  intros Htz Hday.
  rewrite (WeatherDataDate_exact _ data Htz Hday).
  rewrite Date_first_of_year. cbv zeta.
  unfold time.Add, time.FixedZone, time.utcOffset,
    time.Hour, time.Minute, time.Second, time.Nanosecond.
  f_equal. lia.
Qed.

(** C3 (as amended): when the time zone loads, for every year and hour
    and every day-of-year from -106750 to 106752, the resolver returns
    what [time.Date] gives for hour [Hour] of January 1 of [Year] in
    that zone, advanced by [Day - 1] times 24 hours; in a zone of fixed
    offset this is [Day - 1] days and [Hour] hours after the local
    midnight that starts the year.  With Mountain Standard Time,
    (2023, 1, 0) is local midnight of 1 January 2023, (2023, 365, 23)
    is 23:00 of 31 December 2023 and (2024, 366, 0) is local midnight
    of 31 December 2024. *)
Theorem WeatherDataDate_day_offset (tz : time.Location) :
  LoadLocation "America/Phoenix" = Some tz ->
  (forall data : HourlyWeatherData,
      -106750 <= Day data <= 106752 ->
      WeatherDataDate data
      = (time.Add (time.Date (Year data) 1 1 (Hour data) 0 0 0 tz)
           ((Day data - 1) * (24 * time.Hour)), None))
  /\ (forall name offset (data : HourlyWeatherData),
         tz = time.FixedZone name offset ->
         -106750 <= Day data <= 106752 ->
         WeatherDataDate data
         = (((time.daysSinceEpoch (Year data) + (Day data - 1)) * 86400
             + Hour data * 3600 - offset) * 1000000000, None))
  /\ (tz = MST ->
      resolve 2023 1 0 = (time.Date 2023 1 1 0 0 0 0 MST, None)
      /\ resolve 2023 365 23 = (time.Date 2023 12 31 23 0 0 0 MST, None)
      /\ resolve 2024 366 0 = (time.Date 2024 12 31 0 0 0 0 MST, None)).
Proof.
  intros Htz. split; [|split].
  - intros data Hday. apply WeatherDataDate_exact; assumption.
  - intros name offset data Hfixed Hday. subst tz.
    apply (WeatherDataDate_fixed_zone name offset); assumption.
  - intros Hmst. subst tz. unfold resolve.
    rewrite !(WeatherDataDate_exact MST) by (try exact Htz; cbn; lia).
    repeat split; vm_compute; reflexivity.
Qed.

(** C9 (as amended): the resolver fails exactly when the time zone
    does not load, whatever the record holds, and then with the
    time-zone error; day-of-year is not checked, and once the zone is
    loaded every day-of-year resolves.  In the fixed, DST-free zone
    (one offset from UTC at all times), with an hour from 0 to 23, a
    day-of-year past the end of the year by at most 365 days resolves to
    an instant of the following year, and a day-of-year from -364 to 0
    to an instant of the year before.  With Mountain Standard Time,
    (2023, 367, 0) is local midnight of 2 January 2024. *)
Theorem WeatherDataDate_unchecked_day :
  (forall data : HourlyWeatherData,
      snd (WeatherDataDate data) <> None
      <-> LoadLocation "America/Phoenix" = None)
  /\ (forall data : HourlyWeatherData,
         snd (WeatherDataDate data) = None
         \/ WeatherDataDate data = (time.zero, Some ErrTimezone))
  /\ (forall name offset year dayOfYear hour,
         LoadLocation "America/Phoenix" = Some (time.FixedZone name offset) ->
         0 <= hour <= 23 ->
         (daysIn year < dayOfYear <= daysIn year + 365 ->
          exists t, resolve year dayOfYear hour = (t, None)
                    /\ time.inYear (time.FixedZone name offset) (year + 1) t)
         /\ (-364 <= dayOfYear <= 0 ->
             exists t, resolve year dayOfYear hour = (t, None)
                       /\ time.inYear (time.FixedZone name offset)
                            (year - 1) t))
  /\ (LoadLocation "America/Phoenix" = Some MST ->
      resolve 2023 367 0 = (time.Date 2024 1 2 0 0 0 0 MST, None))
  /\ (forall tz year dayOfYear hour,
         LoadLocation "America/Phoenix" = Some tz ->
         exists t, resolve year dayOfYear hour = (t, None)).
Proof.
  split; [|split; [|split; [|split]]].
  - intros data. unfold WeatherDataDate.
    destruct (LoadLocation "America/Phoenix"); simpl; split; congruence.
  - intros data. unfold WeatherDataDate.
    destruct (LoadLocation "America/Phoenix"); simpl; auto.
  - intros name offset year dayOfYear hour Htz Hhour.
    pose proof (daysSinceEpoch_succ year) as Hnext.
    pose proof (daysSinceEpoch_succ (year + 1)) as Hnext2.
    pose proof (daysSinceEpoch_succ (year - 1)) as Hprev.
    replace (year - 1 + 1) with year in Hprev by lia.
    assert (Hlen : forall y, 365 <= daysIn y <= 366)
      by (intros y; unfold daysIn; destruct (time.isLeap y); lia).
    pose proof (Hlen year) as Hy. pose proof (Hlen (year + 1)) as Hy1.
    pose proof (Hlen (year - 1)) as Hy0.
    split; intros Hday.
    + eexists. split.
      * unfold resolve. apply (WeatherDataDate_fixed_zone name offset).
        -- exact Htz.
        -- cbn. lia.
      * unfold time.inYear. rewrite !Date_first_of_year. cbn. lia.
    + eexists. split.
      * unfold resolve. apply (WeatherDataDate_fixed_zone name offset).
        -- exact Htz.
        -- cbn. lia.
      * unfold time.inYear. rewrite !Date_first_of_year. cbn.
        replace (year - 1 + 1) with year by lia. lia.
  - intros Htz. unfold resolve.
    rewrite (WeatherDataDate_exact MST) by (try exact Htz; cbn; lia).
    vm_compute. reflexivity.
  - intros tz year dayOfYear hour Htz. unfold resolve.
    rewrite (WeatherDataDate_loaded _ tz Htz). eexists. reflexivity.
Qed.

(** *** The assembler *)

(** The reader lets a lexed record through when it is the first one,
    or has the field count the first one fixed. *)
Lemma readRecord_pass (r : list string) (FieldsPerRecord : Z) :
  FieldsPerRecord = 0
  \/ (0 < FieldsPerRecord /\ FieldsPerRecord = Z.of_nat (List.length r)) ->
  csv.readRecord (csv.Lexed r) FieldsPerRecord
  = ((r, None), Z.of_nat (List.length r)).
Proof.
  intros [->|[Hpos Heq]]; unfold csv.readRecord.
  - reflexivity.
  - destruct (0 <? FieldsPerRecord) eqn:Hlt; [|lia].
    rewrite Heq at 1. rewrite Z.eqb_refl. cbn [negb].
    rewrite Heq at 1. reflexivity.
Qed.

Lemma readRecord_reject (r : list string) (FieldsPerRecord : Z) :
  0 < FieldsPerRecord ->
  Z.of_nat (List.length r) <> FieldsPerRecord ->
  csv.readRecord (csv.Lexed r) FieldsPerRecord
  = ((r, Some csv.ErrFieldCount), FieldsPerRecord).
Proof.
  intros Hpos Hne. unfold csv.readRecord.
  destruct (0 <? FieldsPerRecord) eqn:Hlt; [|lia].
  apply Z.eqb_neq in Hne. rewrite Hne. reflexivity.
Qed.

(** Only a lexed record comes out of the reader without an error. *)
Lemma readRecord_ok (raw : csv.rawRecord) (FieldsPerRecord fpr' : Z)
  (dst : list string) :
  csv.readRecord raw FieldsPerRecord = ((dst, None), fpr') ->
  raw = csv.Lexed dst.
Proof.
  unfold csv.readRecord.
  destruct raw as [r|r e];
    destruct (0 <? FieldsPerRecord);
    try destruct (negb (Z.of_nat (List.length r) =? FieldsPerRecord));
    try destruct (FieldsPerRecord =? 0);
    intros H; inversion H; reflexivity.
Qed.

Lemma readLoop_pass (r : list string) (pending : list csv.rawRecord)
  (FieldsPerRecord : Z) (data : list HourlyWeatherData) :
  FieldsPerRecord = 0
  \/ (0 < FieldsPerRecord /\ FieldsPerRecord = Z.of_nat (List.length r)) ->
  readLoop (csv.Lexed r :: pending) FieldsPerRecord data
  = match parseHourlyWeatherData r with
    | (_, Some e) => ([], Some e)
    | (rec, None) =>
        match WeatherDataDate rec with
        | (_, Some e) => ([], Some e)
        | (date, None) =>
            readLoop pending (Z.of_nat (List.length r))
              (data ++ [setTime date rec])
        end
    end.
Proof.
  intros Hfpr. cbn [readLoop]. rewrite readRecord_pass by exact Hfpr.
  destruct (parseHourlyWeatherData r) as [rec [e|]]; [reflexivity|].
  destruct (WeatherDataDate rec) as [date [e|]]; reflexivity.
Qed.

Lemma readLoop_reject (r : list string) (pending : list csv.rawRecord)
  (FieldsPerRecord : Z) (data : list HourlyWeatherData) :
  0 < FieldsPerRecord ->
  Z.of_nat (List.length r) <> FieldsPerRecord ->
  readLoop (csv.Lexed r :: pending) FieldsPerRecord data
  = ([], Some (ErrCsv csv.ErrFieldCount)).
Proof.
  intros Hpos Hne. cbn [readLoop].
  rewrite readRecord_reject by assumption. reflexivity.
Qed.

(** A record that decodes has 18 fields. *)
Lemma parseHourlyWeatherData_ok_length (r : list string)
  (d : HourlyWeatherData) :
  parseHourlyWeatherData r = (d, None) -> List.length r = 18%nat.
Proof.
  unfold parseHourlyWeatherData, parseTraced.
  destruct (Nat.eqb (List.length r) 18) eqn:Hlen.
  - intros _. apply Nat.eqb_eq. exact Hlen.
  - cbn. discriminate.
Qed.

(** What it means for a row to raise no failure. *)
Lemma rowFailure_None (r : list string) :
  rowFailure r = None ->
  List.length r = 18%nat
  /\ exists rec date,
      parseHourlyWeatherData r = (rec, None)
      /\ WeatherDataDate rec = (date, None).
Proof.
  unfold rowFailure.
  destruct (parseHourlyWeatherData r) as [rec [e|]] eqn:Hparse;
    [discriminate|].
  destruct (WeatherDataDate rec) as [date [e|]] eqn:Hdate;
    cbn [snd]; [discriminate|].
  intros _. split.
  - apply (parseHourlyWeatherData_ok_length r rec Hparse).
  - exists rec, date. split; [reflexivity | exact Hdate].
Qed.

(** Whenever the loop reports an error the slice it returns is empty. *)
Lemma readLoop_error_empty (pending : list csv.rawRecord) :
  forall FieldsPerRecord data e,
    snd (readLoop pending FieldsPerRecord data) = Some e ->
    fst (readLoop pending FieldsPerRecord data) = [].
Proof.
  induction pending as [|raw pending IH]; intros fpr data e.
  - cbn. discriminate.
  - cbn [readLoop].
    destruct (csv.readRecord raw fpr) as [[record [e0|]] fpr'];
      [reflexivity|].
    destruct (parseHourlyWeatherData record) as [rec [e1|]]; [reflexivity|].
    destruct (WeatherDataDate rec) as [date [e2|]]; [reflexivity|].
    apply IH.
Qed.





(** Well-formed rows go through the loop one by one, in order. *)
Lemma readLoop_wellFormed (tz : time.Location) :
  LoadLocation "America/Phoenix" = Some tz ->
  forall rows FieldsPerRecord data,
    FieldsPerRecord = 0 \/ FieldsPerRecord = 18 ->
    Forall wellFormed rows ->
    readLoop (map csv.Lexed rows) FieldsPerRecord data
    = (data ++ map assembled rows, None).
Proof.
  intros Htz.
  induction rows as [|r rows IH]; intros fpr data Hfpr Hrows.
  - cbn. rewrite app_nil_r. reflexivity.
  - inversion Hrows as [|? ? Hr Hrows']; subst.
    destruct (parseHourlyWeatherData_wellFormed r Hr) as [rec Hparse].
    destruct Hr as [Hlen _].
    cbn [map]. rewrite readLoop_pass by lia.
    unfold assembled. rewrite Hparse. cbn [fst].
    rewrite (WeatherDataDate_loaded rec tz Htz). cbn [fst].
    rewrite Hlen. rewrite IH by (auto; lia).
    rewrite <- app_assoc. reflexivity.
Qed.

(** The timestamp of an assembled record is the resolver's answer for
    the record's own year, day and hour. *)
Lemma assembled_Time (tz : time.Location) (r : list string) :
  LoadLocation "America/Phoenix" = Some tz ->
  resolve (Year (assembled r)) (Day (assembled r)) (Hour (assembled r))
  = (Time (assembled r), None).
Proof.
  intros Htz. unfold resolve, assembled.
  set (rec := fst (parseHourlyWeatherData r)).
  rewrite (WeatherDataDate_loaded rec tz Htz).
  rewrite (WeatherDataDate_loaded (observation _ _ _) tz Htz).
  cbn [fst setTime Time Year Day Hour observation setInt zeroData].
  reflexivity.
Qed.

(** C8 (as amended): when the time zone loads, a stream of [n]
    well-formed rows is assembled into exactly [n] records, the [k]-th
    record made of the [k]-th row (so in source order, repeated rows
    giving repeated records): its fields are the decoder's and its
    [Time] is what the resolver returns for its own year, day and
    hour. *)
Theorem ReadHourlyData_wellFormed (tz : time.Location)
  (rows : list (list string)) :
  LoadLocation "America/Phoenix" = Some tz ->
  Forall wellFormed rows ->
  ReadHourlyData (map csv.Lexed rows) = (map assembled rows, None)
  /\ List.length (map assembled rows) = List.length rows
  /\ Forall (fun r =>
               exists rec,
                 parseHourlyWeatherData r = (rec, None)
                 /\ assembled r = setTime (Time (assembled r)) rec
                 /\ resolve (Year (assembled r)) (Day (assembled r))
                      (Hour (assembled r))
                    = (Time (assembled r), None)) rows.
Proof.
  intros Htz Hrows. split; [|split].
  - unfold ReadHourlyData.
    rewrite (readLoop_wellFormed tz Htz) by auto. reflexivity.
  - apply length_map.
  - apply Forall_forall. intros r Hin.
    rewrite Forall_forall in Hrows.
    destruct (parseHourlyWeatherData_wellFormed r (Hrows r Hin))
      as [rec Hparse].
    exists rec. split; [exact Hparse|]. split.
    + unfold assembled. rewrite Hparse.
      cbn [fst setTime Time]. reflexivity.
    + apply (assembled_Time tz r Htz).
Qed.

(** The decoder's loop never reports a shape error. *)
Lemma parseFields_not_shape (record : list string) (n : nat) :
  forall remaining i data trace,
    snd (fst (parseFields remaining i record data trace))
    <> Some (ErrFieldListLength n).
Proof.
  induction remaining as [|remaining IH]; intros i data trace.
  - cbn. discriminate.
  - cbn [parseFields].
    destruct (negb (CanSet _)); [cbn; discriminate|].
    destruct (FieldKind _).
    + destruct (strconv.Atoi _); [apply IH | cbn; discriminate].
    + destruct (ParseFloat32 _); [apply IH | cbn; discriminate].
    + cbn. discriminate.
Qed.

(** A shape error of the decoder reports the count of a row that does
    not have 18 fields. *)
Lemma parseHourlyWeatherData_shape_inv (r : list string)
  (d : HourlyWeatherData) (n : nat) :
  parseHourlyWeatherData r = (d, Some (ErrFieldListLength n)) ->
  List.length r = n /\ n <> 18%nat.
Proof.
  unfold parseHourlyWeatherData, parseTraced.
  destruct (Nat.eqb (List.length r) 18) eqn:Hlen; cbn [negb].
  - intros H. exfalso.
    apply (parseFields_not_shape r n 18 0 zeroData []).
    rewrite H. reflexivity.
  - cbn [fst]. intros H. injection H as _ <-.
    split; [reflexivity|]. apply Nat.eqb_neq. exact Hlen.
Qed.

(** Once the reader expects 18 fields the decoder's shape check cannot
    fail any more. *)
Lemma readLoop_18_no_shape (n : nat) (pending : list csv.rawRecord) :
  forall data,
    snd (readLoop pending 18 data) <> Some (ErrFieldListLength n).
Proof.
  induction pending as [|raw pending IH]; intros data.
  - cbn. discriminate.
  - destruct raw as [r|r e].
    + destruct (Z.eq_dec (Z.of_nat (List.length r)) 18) as [Heq|Hne].
      * rewrite readLoop_pass by lia.
        destruct (parseHourlyWeatherData r) as [rec [e1|]] eqn:Hparse.
        -- cbn [snd]. intros H. injection H as ->.
           apply parseHourlyWeatherData_shape_inv in Hparse. lia.
        -- unfold WeatherDataDate.
           destruct (LoadLocation "America/Phoenix");
             [|cbn; discriminate].
           rewrite Heq. apply IH.
      * rewrite readLoop_reject by lia. cbn. discriminate.
    + cbn. discriminate.
Qed.

(** C10 (as amended): the reader holds every row after the first to the
    first row's field count.  After rows that were assembled, a row
    whose count differs from the first row's makes the call fail with
    the reader's field-count error, without reaching the decoder.  The
    decoder's shape error can only come from the first row of the
    stream, when that row does not have 18 fields; it then comes
    whatever the later rows hold. *)
Theorem ReadHourlyData_field_count :
  (forall first good bad rest,
      Forall (fun r => rowFailure r = None) (first :: good) ->
      List.length bad <> List.length first ->
      ReadHourlyData
        (map csv.Lexed (first :: good) ++ csv.Lexed bad :: rest)
      = ([], Some (ErrCsv csv.ErrFieldCount)))
  /\ (forall reader n,
         snd (ReadHourlyData reader) = Some (ErrFieldListLength n) ->
         exists first rest,
           reader = csv.Lexed first :: rest
           /\ List.length first = n /\ n <> 18%nat)
  /\ (forall first rest,
         List.length first <> 18%nat ->
         ReadHourlyData (csv.Lexed first :: rest)
         = ([], Some (ErrFieldListLength (List.length first)))).
Proof.
  split; [|split].
  - intros first good bad rest Hgood Hlen.
    inversion Hgood as [|? ? Hfirst _]; subst.
    apply rowFailure_None in Hfirst. destruct Hfirst as [Hfirst _].
    rewrite Hfirst in Hlen.
    unfold ReadHourlyData.
    assert (Hloop : forall rows fpr data,
               fpr = 0 \/ fpr = 18 ->
               rows <> [] \/ fpr = 18 ->
               Forall (fun r => rowFailure r = None) rows ->
               readLoop (map csv.Lexed rows ++ csv.Lexed bad :: rest) fpr data
               = ([], Some (ErrCsv csv.ErrFieldCount))).
    { induction rows as [|r rows IH]; intros fpr data Hfpr Hreach Hrows.
      - destruct Hreach as [Hne|Heq]; [congruence|]. subst fpr.
        cbn [map app]. apply readLoop_reject; lia.
      - inversion Hrows as [|? ? Hr Hrows']; subst.
        apply rowFailure_None in Hr.
        destruct Hr as (Hlenr & rec & date & Hparse & Hdate).
        cbn [map app]. rewrite readLoop_pass by lia.
        rewrite Hparse, Hdate, Hlenr.
        apply IH; auto. }
    apply Hloop; auto. left. discriminate.
  - intros reader n. unfold ReadHourlyData.
    destruct reader as [|[first|first e] rest].
    + cbn. discriminate.
    + rewrite readLoop_pass by lia.
      destruct (parseHourlyWeatherData first) as [rec [e1|]] eqn:Hparse.
      * cbn [snd]. intros H. injection H as ->.
        apply parseHourlyWeatherData_shape_inv in Hparse.
        exists first, rest. split; [reflexivity | exact Hparse].
      * pose proof (parseHourlyWeatherData_ok_length _ _ Hparse) as Hlen.
        unfold WeatherDataDate.
        destruct (LoadLocation "America/Phoenix"); [|cbn; discriminate].
        rewrite Hlen. intros H. exfalso.
        apply (readLoop_18_no_shape n rest _ H).
    + cbn. discriminate.
  - intros first rest Hlen. unfold ReadHourlyData.
    rewrite readLoop_pass by lia.
    unfold parseHourlyWeatherData, parseTraced.
    apply Nat.eqb_neq in Hlen. rewrite Hlen. reflexivity.
Qed.

(** *** The entry point *)

(** C6: a year below 2003 or above 2099 is refused with the
    invalid-year error, before any address is built or retrieval
    attempted, whatever the station; for a year from 2003 to 2099 the
    address is built, one retrieval of it is attempted, and the call
    returns the transport error or what the assembler makes of the
    body. *)
Theorem DownloadHourlyData_year_range (station : WeatherStation) (year : Z)
  (log : list event) :
  (year < 2003 \/ 2099 < year ->
   DownloadHourlyData station year log
   = (Returned ([], Some (ErrInvalidYear year)), log))
  /\ (2003 <= year <= 2099 ->
      exists url,
        generateUrl station year = Returned url
        /\ snd (DownloadHourlyData station year log)
           = log ++ [UrlBuilt url; Requested url]
        /\ fst (DownloadHourlyData station year log)
           = Returned match Get url with
                      | inl body => ReadHourlyData body
                      | inr msg => ([], Some (ErrHttp msg))
                      end).
Proof.
  split.
  - intros Hout. unfold DownloadHourlyData.
    destruct ((year <? 2003) || (2099 <? year)) eqn:Hguard; [reflexivity|].
    apply orb_false_iff in Hguard. destruct Hguard as [H1 H2].
    apply Z.ltb_ge in H1. apply Z.ltb_ge in H2. lia.
  - intros Hin. unfold DownloadHourlyData.
    destruct ((year <? 2003) || (2099 <? year)) eqn:Hguard.
    + apply orb_true_iff in Hguard.
      destruct Hguard as [H|H]; apply Z.ltb_lt in H; lia.
    + unfold generateUrl. rewrite lastTwo_year by exact Hin.
      eexists. split; [reflexivity|].
      cbv iota beta zeta. rewrite <- app_assoc.
      destruct (Get _); split; reflexivity.
Qed.

(** ** Further properties *)

(** *** The decoder, continued *)

Lemma filter_seq_all_false (p : nat -> bool) (n a : nat) :
  (forall k, (a <= k < a + n)%nat -> p k = false) ->
  filter p (seq a n) = [].
Proof.
  revert a. induction n as [|n IH]; intros a H; simpl.
  - reflexivity.
  - rewrite (H a) by lia. apply IH. intros k Hk. apply H. lia.
Qed.

(** On an 18-field row the decoder is its loop. *)
Lemma parseTraced_18 (record : list string) :
  List.length record = 18%nat ->
  parseTraced record = parseFields 18 0 record zeroData [].
Proof.
  intros Hlen. unfold parseTraced. rewrite Hlen. reflexivity.
Qed.

(** When the loop runs to the end every text it met parsed. *)
Lemma parseFields_ok_inv (record : list string) (d : HourlyWeatherData) :
  forall remaining i data trace,
    (i + remaining = 18)%nat ->
    fst (parseFields remaining i record data trace) = (d, None) ->
    forall k, (i <= k < 18)%nat ->
              parses k (nth k record EmptyString) = true.
Proof.
  induction remaining as [|remaining IH]; intros i data trace Hsum Hok k Hk.
  - lia.
  - rewrite parseFields_step in Hok by lia. cbv zeta in Hok.
    destruct (Nat.ltb i 3) eqn:Hlt.
    + destruct (strconv.Atoi (nth i record EmptyString)) eqn:Hint;
        [|discriminate Hok].
      destruct (Nat.eq_dec k i) as [->|Hne].
      * rewrite parses_Int by (apply Nat.ltb_lt; exact Hlt).
        rewrite Hint. reflexivity.
      * apply (IH (S i) _ _ ltac:(lia) Hok). lia.
    + apply Nat.ltb_ge in Hlt.
      destruct (ParseFloat32 (nth i record EmptyString)) eqn:Hfloat;
        [|discriminate Hok].
      destruct (Nat.eq_dec k i) as [->|Hne].
      * rewrite parses_Float32 by lia. rewrite Hfloat. reflexivity.
      * apply (IH (S i) _ _ ltac:(lia) Hok). lia.
Qed.

Lemma parseHourlyWeatherData_ok_wellFormed (record : list string)
  (d : HourlyWeatherData) :
  parseHourlyWeatherData record = (d, None) -> wellFormed record.
Proof.
  intros Hok.
  pose proof (parseHourlyWeatherData_ok_length record d Hok) as Hlen.
  split; [exact Hlen|].
  unfold parseHourlyWeatherData in Hok.
  rewrite (parseTraced_18 record Hlen) in Hok.
  apply filter_seq_all_false. intros k Hk.
  apply negb_false_iff.
  apply (parseFields_ok_inv record d 18 0 zeroData [] eq_refl Hok). lia.
Qed.

(** The decoder on an 18-field row with a field that does not parse. *)
Lemma parseHourlyWeatherData_first_offending (record : list string)
  (j : nat) (later : list nat) :
  List.length record = 18%nat ->
  offending record = j :: later ->
  (j < 18)%nat
  /\ parseHourlyWeatherData record
     = (zeroData,
        Some (if Nat.ltb j 3 then ErrParseInt (nth j record EmptyString)
              else ErrParseFloat32 (nth j record EmptyString))).
Proof.
  intros Hlen Hoff.
  apply filter_seq_head in Hoff. destruct Hoff as (Hj & Hbad & Hgood).
  apply negb_true_iff in Hbad.
  split; [lia|].
  unfold parseHourlyWeatherData.
  rewrite (parseTraced_18 record Hlen).
  rewrite (parseFields_first_bad record j ltac:(lia) Hbad 18 0 zeroData []
             eq_refl ltac:(lia)).
  - unfold typeError. destruct (field_info j) as [_ ->]; [lia|].
    destruct (Nat.ltb j 3); reflexivity.
  - intros k Hk. specialize (Hgood k Hk).
    apply negb_false_iff in Hgood. exact Hgood.
Qed.

(** X1: the decoder accepts a row exactly when the row is well formed,
    that is, has 18 fields of which the first three read as [int] and
    the other fifteen as [float32]. *)
Theorem parseHourlyWeatherData_accepts_iff (record : list string) :
  (exists d, parseHourlyWeatherData record = (d, None))
  <-> wellFormed record.
Proof.
  split.
  - intros [d Hok]. apply (parseHourlyWeatherData_ok_wellFormed record d Hok).
  - apply parseHourlyWeatherData_wellFormed.
Qed.

(** X2: whenever the decoder fails, the record it returns is the zero
    record, and the error is the shape error of a row that does not
    have 18 fields, or the [int] or [float32] error of the first field
    of an 18-field row that does not parse; the errors of the
    reflective branches (a field that cannot be set, a field of another
    kind) never occur. *)
Theorem parseHourlyWeatherData_errors (record : list string)
  (d : HourlyWeatherData) (e : error) :
  parseHourlyWeatherData record = (d, Some e) ->
  d = zeroData
  /\ ((List.length record <> 18%nat
       /\ e = ErrFieldListLength (List.length record))
      \/ (List.length record = 18%nat
          /\ exists j later,
              offending record = j :: later
              /\ (j < 3)%nat /\ e = ErrParseInt (nth j record EmptyString))
      \/ (List.length record = 18%nat
          /\ exists j later,
              offending record = j :: later
              /\ (3 <= j < 18)%nat
              /\ e = ErrParseFloat32 (nth j record EmptyString))).
Proof.
  intros Herr.
  destruct (Nat.eq_dec (List.length record) 18) as [Hlen|Hlen].
  - destruct (offending record) as [|j later] eqn:Hoff.
    + destruct (parseHourlyWeatherData_wellFormed record (conj Hlen Hoff))
        as [d' Hok].
      rewrite Hok in Herr. discriminate Herr.
    + destruct (parseHourlyWeatherData_first_offending record j later
                  Hlen Hoff) as [Hj Hfail].
      rewrite Hfail in Herr.
      destruct (Nat.ltb j 3) eqn:Hlt; injection Herr as <- <-;
        (split; [reflexivity|]).
      * right. left. split; [exact Hlen|].
        exists j, later. apply Nat.ltb_lt in Hlt. auto.
      * right. right. split; [exact Hlen|].
        exists j, later. apply Nat.ltb_ge in Hlt.
        split; [reflexivity|]. split; [lia | reflexivity].
  - unfold parseHourlyWeatherData, parseTraced in Herr.
    pose proof Hlen as Hneq. apply Nat.eqb_neq in Hneq.
    rewrite Hneq in Herr. cbn [negb fst] in Herr.
    injection Herr as <- <-. split; [reflexivity|].
    left. split; [exact Hlen | reflexivity].
Qed.

(** The coercions of the loop up to and including position [j]. *)
Lemma parseFields_trace_bad (record : list string) (j : nat) :
  (j < 18)%nat ->
  parses j (nth j record EmptyString) = false ->
  forall remaining i data trace,
    (i + remaining = 18)%nat -> (i <= j)%nat ->
    (forall k, (i <= k < j)%nat ->
               parses k (nth k record EmptyString) = true) ->
    snd (parseFields remaining i record data trace)
    = trace ++ map coercionAt (seq i (S j - i)).
Proof.
  intros Hj Hbad.
  induction remaining as [|remaining IH]; intros i data trace Hsum Hij Hgood.
  - lia.
  - rewrite parseFields_step by lia. cbv zeta.
    destruct (Nat.eq_dec i j) as [->|Hne].
    + replace (S j - j)%nat with 1%nat by lia. cbn [seq map].
      unfold coercionAt.
      destruct (Nat.ltb j 3) eqn:Hlt.
      * rewrite parses_Int in Hbad by (apply Nat.ltb_lt; exact Hlt).
        destruct (strconv.Atoi (nth j record EmptyString));
          [discriminate|reflexivity].
      * apply Nat.ltb_ge in Hlt.
        rewrite parses_Float32 in Hbad by lia.
        destruct (ParseFloat32 (nth j record EmptyString));
          [discriminate|reflexivity].
    + assert (Hi : parses i (nth i record EmptyString) = true)
        by (apply Hgood; lia).
      replace (S j - i)%nat with (S (S j - S i)) by lia.
      cbn [seq map]. unfold coercionAt at 1.
      destruct (Nat.ltb i 3) eqn:Hlt.
      * rewrite parses_Int in Hi by (apply Nat.ltb_lt; exact Hlt).
        destruct (strconv.Atoi (nth i record EmptyString)); [|discriminate].
        rewrite IH; try lia.
        -- rewrite <- app_assoc. reflexivity.
        -- intros k Hk. apply Hgood. lia.
      * apply Nat.ltb_ge in Hlt.
        rewrite parses_Float32 in Hi by lia.
        destruct (ParseFloat32 (nth i record EmptyString)); [|discriminate].
        rewrite IH; try lia.
        -- rewrite <- app_assoc. reflexivity.
        -- intros k Hk. apply Hgood. lia.
Qed.

Lemma parseFields_trace_good (record : list string) :
  forall remaining i data trace,
    (i + remaining = 18)%nat ->
    (forall k, (i <= k < 18)%nat ->
               parses k (nth k record EmptyString) = true) ->
    snd (parseFields remaining i record data trace)
    = trace ++ map coercionAt (seq i remaining).
Proof.
  induction remaining as [|remaining IH]; intros i data trace Hsum Hgood.
  - cbn. rewrite app_nil_r. reflexivity.
  - rewrite parseFields_step by lia. cbv zeta.
    assert (Hi : parses i (nth i record EmptyString) = true)
      by (apply Hgood; lia).
    cbn [seq map]. unfold coercionAt at 1.
    destruct (Nat.ltb i 3) eqn:Hlt.
    + rewrite parses_Int in Hi by (apply Nat.ltb_lt; exact Hlt).
      destruct (strconv.Atoi (nth i record EmptyString)); [|discriminate].
      rewrite IH; try lia.
      * rewrite <- app_assoc. reflexivity.
      * intros k Hk. apply Hgood. lia.
    + apply Nat.ltb_ge in Hlt.
      rewrite parses_Float32 in Hi by lia.
      destruct (ParseFloat32 (nth i record EmptyString)); [|discriminate].
      rewrite IH; try lia.
      * rewrite <- app_assoc. reflexivity.
      * intros k Hk. apply Hgood. lia.
Qed.

(** X3: on an 18-field row the decoder hands the fields to [strconv]
    one by one from the first, as [int] for the first three and as
    [float32] after, and stops at the first field that does not parse:
    no field after it is looked at. *)
Theorem coercions_fail_fast (record : list string) :
  List.length record = 18%nat ->
  coercions record
  = map coercionAt
      (seq 0 match offending record with
             | [] => 18
             | j :: _ => S j
             end).
Proof.
  intros Hlen. unfold coercions.
  rewrite (parseTraced_18 record Hlen).
  destruct (offending record) as [|j later] eqn:Hoff.
  - rewrite parseFields_trace_good; [reflexivity | reflexivity|].
    intros k Hk. apply negb_false_iff.
    apply (filter_seq_nil _ _ _ Hoff k). lia.
  - apply filter_seq_head in Hoff. destruct Hoff as (Hj & Hbad & Hgood).
    apply negb_true_iff in Hbad.
    rewrite (parseFields_trace_bad record j ltac:(lia) Hbad); try lia.
    + rewrite Nat.sub_0_r. reflexivity.
    + intros k Hk. specialize (Hgood k Hk).
      apply negb_false_iff in Hgood. exact Hgood.
Qed.

(** *** The assembler, continued *)

(** What the loop has read when it ends without an error. *)
Lemma readLoop_ok_inv (pending : list csv.rawRecord) :
  forall FieldsPerRecord data out,
    readLoop pending FieldsPerRecord data = (out, None) ->
    exists rows,
      pending = map csv.Lexed rows
      /\ Forall wellFormed rows
      /\ out = data ++ map assembled rows
      /\ (rows = [] \/ LoadLocation "America/Phoenix" <> None).
Proof.
  induction pending as [|raw pending IH]; intros fpr data out Hok.
  - cbn in Hok. injection Hok as <-.
    exists []. cbn. rewrite app_nil_r. auto.
  - cbn [readLoop] in Hok.
    destruct (csv.readRecord raw fpr) as [[dst [e0|]] fpr'] eqn:Hread;
      [discriminate Hok|].
    apply readRecord_ok in Hread. subst raw.
    destruct (parseHourlyWeatherData dst) as [rec [e1|]] eqn:Hparse;
      [discriminate Hok|].
    destruct (WeatherDataDate rec) as [date [e2|]] eqn:Hdate;
      [discriminate Hok|].
    destruct (IH _ _ _ Hok) as (rows & -> & Hrows & -> & _).
    exists (dst :: rows). split; [reflexivity|]. split; [|split].
    + constructor; [|exact Hrows].
      apply (parseHourlyWeatherData_ok_wellFormed dst rec Hparse).
    + cbn [map]. unfold assembled at 2. rewrite Hparse. cbn [fst].
      rewrite Hdate. cbn [fst]. rewrite <- app_assoc. reflexivity.
    + right. intros Hnone. unfold WeatherDataDate in Hdate.
      rewrite Hnone in Hdate. discriminate Hdate.
Qed.

(** X4: the assembler returns a dataset without an error exactly when
    every record of the stream was lexed and is well formed and, unless
    the stream is empty, the time zone loads; the dataset then holds
    the assembled rows, one per row, in order.  An empty stream gives
    the empty dataset even on a host without the zone. *)
Theorem ReadHourlyData_succeeds_iff (reader : list csv.rawRecord)
  (data : list HourlyWeatherData) :
  ReadHourlyData reader = (data, None)
  <-> exists rows,
      reader = map csv.Lexed rows
      /\ Forall wellFormed rows
      /\ data = map assembled rows
      /\ (rows = [] \/ LoadLocation "America/Phoenix" <> None).
Proof.
  unfold ReadHourlyData. split.
  - intros Hok. destruct (readLoop_ok_inv reader 0 [] data Hok)
      as (rows & Hreader & Hrows & Hdata & Hzone).
    exists rows. auto.
  - intros (rows & -> & Hrows & -> & [->|Hzone]).
    + reflexivity.
    + destruct (LoadLocation "America/Phoenix") as [tz|] eqn:Htz;
        [|congruence].
      rewrite (readLoop_wellFormed tz Htz) by auto. reflexivity.
Qed.

(** X5: every dataset the assembler returns without an error has one
    record per record of the stream, and each of its records carries
    in [Time] what the resolver returns for that very record. *)
Theorem ReadHourlyData_dataset_invariant (reader : list csv.rawRecord)
  (data : list HourlyWeatherData) :
  ReadHourlyData reader = (data, None) ->
  List.length data = List.length reader
  /\ Forall (fun d => WeatherDataDate d = (Time d, None)) data.
Proof.
  unfold ReadHourlyData. intros Hok.
  destruct (readLoop_ok_inv reader 0 [] data Hok)
    as (rows & -> & Hrows & -> & Hzone).
  cbn [app]. split.
  - rewrite !length_map. reflexivity.
  - apply Forall_forall. intros d Hin.
    apply in_map_iff in Hin. destruct Hin as (r & <- & Hin).
    destruct Hzone as [->|Hzone]; [destruct Hin|].
    destruct (LoadLocation "America/Phoenix") as [tz|] eqn:Htz;
      [|congruence].
    unfold assembled.
    set (rec := fst (parseHourlyWeatherData r)).
    rewrite (WeatherDataDate_loaded rec tz Htz).
    rewrite (WeatherDataDate_loaded (setTime _ _) tz Htz).
    cbn [fst setTime Time Year Day Hour]. reflexivity.
Qed.

(** X6: an error of the CSV reader itself (a quoting error, a failed
    read) on the first record that is not assembled is returned as it
    is, with no data, whatever follows it. *)
Theorem ReadHourlyData_reader_error (good : list (list string))
  (fields : list string) (e : csv.ParseError) (rest : list csv.rawRecord) :
  Forall (fun r => rowFailure r = None) good ->
  ReadHourlyData (map csv.Lexed good ++ csv.Broken fields e :: rest)
  = ([], Some (ErrCsv e)).
Proof.
  unfold ReadHourlyData. intros Hgood.
  assert (Hloop : forall rows fpr data,
             fpr = 0 \/ fpr = 18 ->
             Forall (fun r => rowFailure r = None) rows ->
             readLoop (map csv.Lexed rows ++ csv.Broken fields e :: rest)
               fpr data
             = ([], Some (ErrCsv e))).
  { induction rows as [|r rows IH]; intros fpr data Hfpr Hrows.
    - cbn [map app readLoop]. unfold csv.readRecord.
      destruct Hfpr as [-> | ->]; reflexivity.
    - inversion Hrows as [|? ? Hr Hrows']; subst.
      apply rowFailure_None in Hr.
      destruct Hr as (Hlenr & rec & date & Hparse & Hdate).
      cbn [map app]. rewrite readLoop_pass by lia.
      rewrite Hparse, Hdate, Hlenr.
      apply IH; auto. }
  apply Hloop; auto.
Qed.

(** *** The entry point, continued *)

(** X7: the entry point never panics and is all-or-nothing: for every
    station and year it returns, an error always comes with the empty
    dataset, and the call either leaves the log as it was or adds to it
    one address built and one request for that address. *)
Theorem DownloadHourlyData_total (station : WeatherStation) (year : Z)
  (log : list event) :
  exists data err log',
    DownloadHourlyData station year log = (Returned (data, err), log')
    /\ (err <> None -> data = [])
    /\ (log' = log
        \/ exists url,
            generateUrl station year = Returned url
            /\ log' = log ++ [UrlBuilt url; Requested url]).
Proof.
  unfold DownloadHourlyData.
  destruct ((year <? 2003) || (2099 <? year)) eqn:Hguard.
  - exists [], (Some (ErrInvalidYear year)), log. auto.
  - apply orb_false_iff in Hguard. destruct Hguard as [H1 H2].
    apply Z.ltb_ge in H1. apply Z.ltb_ge in H2.
    unfold generateUrl. rewrite lastTwo_year by lia.
    cbv iota beta zeta. rewrite <- app_assoc. cbn [app].
    destruct (Get _) as [body|msg].
    + destruct (ReadHourlyData body) as [data err] eqn:Hread.
      exists data, err. eexists. split; [reflexivity|]. split.
      * intros Herr. destruct err as [e|]; [|congruence].
        unfold ReadHourlyData in Hread.
        pose proof (readLoop_error_empty body 0 [] e) as Hempty.
        rewrite Hread in Hempty. apply Hempty. reflexivity.
      * right. eexists. split; reflexivity.
    + exists [], (Some (ErrHttp msg)). eexists.
      split; [reflexivity|]. split; [reflexivity|].
      right. eexists. split; reflexivity.
Qed.

(** X8: [main] prints a dataset only when the year (the flag, or the
    current year without one) lies in 2003..2099, the address of the
    station (the flag, or station 12 without one) was built and
    requested once, the retrieval succeeded and every record of the
    body is well formed; what it prints is the assembled rows.  In
    every other case it ends through [log.Fatal] with the one message
    [Error retrieving weather data.]; it never panics. *)
Theorem main_prints_or_fatal (currentYear : Z) (yearFlag stationFlag : option Z)
  (log : list event) :
  let year := match yearFlag with Some y => y | None => currentYear end in
  let station :=
    match stationFlag with Some s => s | None => PhoenixGreenway end in
  (exists log',
      main currentYear yearFlag stationFlag log
      = (Returned (Fatal "Error retrieving weather data."), log'))
  \/ (exists url rows,
         2003 <= year <= 2099
         /\ generateUrl station year = Returned url
         /\ Get url = inl (map csv.Lexed rows)
         /\ Forall wellFormed rows
         /\ main currentYear yearFlag stationFlag log
            = (Returned (Printed (map assembled rows)),
               log ++ [UrlBuilt url; Requested url])).
Proof.
  intros year station. unfold main. fold year. fold station.
  unfold DownloadHourlyData.
  destruct ((year <? 2003) || (2099 <? year)) eqn:Hguard.
  - left. eexists. reflexivity.
  - apply orb_false_iff in Hguard. destruct Hguard as [H1 H2].
    apply Z.ltb_ge in H1. apply Z.ltb_ge in H2.
    unfold generateUrl. rewrite lastTwo_year by lia.
    cbv iota beta zeta.
    destruct (Get _) as [body|msg] eqn:Hget.
    + destruct (ReadHourlyData body) as [data [e|]] eqn:Hread.
      * left. eexists. reflexivity.
      * right.
        destruct (readLoop_ok_inv body 0 [] data Hread)
          as (rows & -> & Hrows & -> & _).
        eexists. exists rows.
        split; [lia|]. split; [reflexivity|]. split; [exact Hget|].
        split; [exact Hrows|].
        rewrite <- app_assoc. reflexivity.
    + left. eexists. reflexivity.
Qed.

(** *** The resolver, continued *)

Lemma daysBefore_bounds (m : Z) :
  0 <= m <= 11 -> 0 <= time.daysBefore m <= 334.
Proof.
  intros Hm.
  assert (Hcases : m = 0 \/ m = 1 \/ m = 2 \/ m = 3 \/ m = 4 \/ m = 5
                   \/ m = 6 \/ m = 7 \/ m = 8 \/ m = 9 \/ m = 10 \/ m = 11)
    by lia.
  repeat (destruct Hcases as [->|Hcases]; [vm_compute; split; discriminate|]).
  subst m. vm_compute; split; discriminate.
Qed.

(** [time.Date] on a day of a month from 1 to 12, in a zone of fixed
    offset. *)
Lemma Date_fixed_zone (name : string) (offset year month day hour : Z) :
  1 <= month <= 12 ->
  time.Date year month day hour 0 0 0 (time.FixedZone name offset)
  = ((time.daysSinceEpoch year + (ordinalDay year month day - 1)) * 86400
     + hour * 3600 - offset) * 1000000000.
Proof.
  intros Hmonth. unfold time.Date, time.norm, ordinalDay.
  rewrite (Z.div_small (month - 1) 12) by lia.
  rewrite (Z.mod_small (month - 1) 12) by lia.
  change (0 / 1000000000) with 0. change (0 mod 1000000000) with 0.
  change (0 + 0) with 0.
  change (0 / 60) with 0. change (0 mod 60) with 0.
  change (0 + 0) with 0.
  change (0 / 60) with 0. change (0 mod 60) with 0.
  cbv zeta. cbn [time.utcOffset time.FixedZone].
  replace (month - 1 + 1) with month by lia.
  rewrite !Z.add_0_r.
  pose proof (Z.div_mod hour 24 ltac:(lia)) as Hdm.
  destruct (time.isLeap year && (3 <=? month)); lia.
Qed.

(** X9: in a zone of fixed offset the resolver, given the day-of-year
    of a calendar date, returns what [time.Date] returns for that date
    and hour: day 1 is 1 January, day 60 is 29 February in a leap year
    and 1 March otherwise. *)
Theorem WeatherDataDate_calendar_date (name : string)
  (offset year month day hour : Z) :
  LoadLocation "America/Phoenix" = Some (time.FixedZone name offset) ->
  1 <= month <= 12 ->
  1 <= day <= 31 ->
  resolve year (ordinalDay year month day) hour
  = (time.Date year month day hour 0 0 0 (time.FixedZone name offset), None).
Proof.
  intros Htz Hmonth Hday.
  pose proof (daysBefore_bounds (month - 1) ltac:(lia)) as Hbefore.
  assert (Hord : 1 <= ordinalDay year month day <= 366).
  { unfold ordinalDay.
    destruct (time.isLeap year && (3 <=? month)); lia. }
  unfold resolve.
  rewrite (WeatherDataDate_fixed_zone name offset _ Htz) by (cbn; lia).
  rewrite Date_fixed_zone by exact Hmonth.
  reflexivity.
Qed.

(** X10: in a zone of fixed offset, a day-of-year from 1 to the length
    of the year and an hour from 0 to 23 resolve to an instant of that
    same calendar year. *)
Theorem WeatherDataDate_within_year (name : string)
  (offset year dayOfYear hour : Z) :
  LoadLocation "America/Phoenix" = Some (time.FixedZone name offset) ->
  1 <= dayOfYear <= daysIn year ->
  0 <= hour <= 23 ->
  exists t,
    resolve year dayOfYear hour = (t, None)
    /\ time.inYear (time.FixedZone name offset) year t.
Proof.
  intros Htz Hday Hhour.
  pose proof (daysSinceEpoch_succ year) as Hnext.
  assert (Hlen : 365 <= daysIn year <= 366)
    by (unfold daysIn; destruct (time.isLeap year); lia).
  eexists. split.
  - unfold resolve. apply (WeatherDataDate_fixed_zone name offset).
    + exact Htz.
    + cbn. lia.
  - unfold time.inYear. rewrite !Date_first_of_year. cbn. lia.
Qed.

Lemma daysSinceEpoch_mono (y1 y2 : Z) :
  y1 <= y2 -> time.daysSinceEpoch y1 <= time.daysSinceEpoch y2.
Proof.
  intros Hle. unfold time.daysSinceEpoch, time.daysBeforeYear.
  Z.div_mod_to_equations. lia.
Qed.

(** X11: in a zone of fixed offset the resolver is strictly increasing
    on well-ranged readings: of two readings with day-of-year within
    the year and hour in 0..23, the one that comes first by year, then
    day, then hour resolves to the earlier instant.  In particular two
    different readings never share a timestamp. *)
Theorem WeatherDataDate_increasing (name : string)
  (offset y1 d1 h1 y2 d2 h2 : Z) :
  LoadLocation "America/Phoenix" = Some (time.FixedZone name offset) ->
  1 <= d1 <= daysIn y1 -> 0 <= h1 <= 23 ->
  1 <= d2 <= daysIn y2 -> 0 <= h2 <= 23 ->
  y1 < y2 \/ (y1 = y2 /\ (d1 < d2 \/ (d1 = d2 /\ h1 < h2))) ->
  fst (resolve y1 d1 h1) < fst (resolve y2 d2 h2).
Proof.
  intros Htz Hd1 Hh1 Hd2 Hh2 Horder.
  assert (Hlen : forall y, 365 <= daysIn y <= 366)
    by (intros y; unfold daysIn; destruct (time.isLeap y); lia).
  pose proof (Hlen y1) as Hl1. pose proof (Hlen y2) as Hl2.
  unfold resolve.
  rewrite !(WeatherDataDate_fixed_zone name offset _ Htz) by (cbn; lia).
  cbn [fst observation setInt zeroData Year Day Hour].
  destruct Horder as [Hyear | [-> Hrest]].
  - pose proof (daysSinceEpoch_succ y1) as Hnext.
    pose proof (daysSinceEpoch_mono (y1 + 1) y2 ltac:(lia)) as Hmono.
    lia.
  - lia.
Qed.

(** The reduction to [int64] changes a number by a multiple of [2^64]. *)
Lemma wrap_spec (z : Z) :
  exists k, Int64.wrap z = z + k * 2 ^ 64
            /\ - 2 ^ 63 <= Int64.wrap z < 2 ^ 63.
Proof.
  unfold Int64.wrap, Int64.modulus.
  exists (- ((z + 2 ^ 63) / 2 ^ 64)).
  pose proof (Z.div_mod (z + 2 ^ 63) (2 ^ 64) ltac:(lia)) as Hdm.
  pose proof (Z.mod_pos_bound (z + 2 ^ 63) (2 ^ 64) ltac:(lia)) as Hb.
  lia.
Qed.

(** X12: whatever the day-of-year, when the time zone loads the
    resolver returns an instant less than [2^63] nanoseconds (some 292
    years) away from the first of the year at the given hour, and that
    instant differs from the one [Day - 1] whole days later by a
    multiple of [2^64] nanoseconds. *)
Theorem WeatherDataDate_wraps (tz : time.Location) (data : HourlyWeatherData) :
  LoadLocation "America/Phoenix" = Some tz ->
  let firstOfYear := time.Date (Year data) 1 1 (Hour data) 0 0 0 tz in
  exists t k,
    WeatherDataDate data = (t, None)
    /\ - 2 ^ 63 <= t - firstOfYear < 2 ^ 63
    /\ t = firstOfYear + (Day data - 1) * (24 * time.Hour) + k * 2 ^ 64.
Proof.
  intros Htz firstOfYear.
  rewrite (WeatherDataDate_loaded data tz Htz). fold firstOfYear.
  unfold Int64.mul, Int64.sub, time.Add.
  destruct (wrap_spec (Day data - 1)) as (k1 & Hk1 & _).
  destruct (wrap_spec (time.Hour * 24 * Int64.wrap (Day data - 1)))
    as (k2 & Hk2 & Hbound).
  eexists. exists (time.Hour * 24 * k1 + k2).
  split; [reflexivity|]. split; [lia|].
  rewrite Hk2, Hk1.
  unfold time.Hour, time.Minute, time.Second, time.Nanosecond. lia.
Qed.

(** *** The source locator, continued *)

Lemma string_length_append (a b : string) :
  String.length (a ++ b)%string = (String.length a + String.length b)%nat.
Proof.
  induction a as [|c a IH]; cbn; [reflexivity | rewrite IH; reflexivity].
Qed.

Lemma string_append_inv_head (s a b : string) :
  (s ++ a)%string = (s ++ b)%string -> a = b.
Proof.
  induction s as [|c s IH]; cbn; intros H; [exact H|].
  injection H as H. apply IH. exact H.
Qed.

(** Two texts with tails of the same length agree piece by piece. *)
Lemma string_append_inv_tail (a b t1 t2 : string) :
  (a ++ t1)%string = (b ++ t2)%string ->
  String.length t1 = String.length t2 ->
  a = b /\ t1 = t2.
Proof.
  revert b. induction a as [|c a IH]; intros [|c' b] H Hlen; cbn in H.
  - split; [reflexivity | exact H].
  - exfalso. subst t1. cbn in Hlen.
    rewrite string_length_append in Hlen. lia.
  - exfalso. subst t2. cbn in Hlen.
    rewrite string_length_append in Hlen. lia.
  - injection H as -> H. destruct (IH b H Hlen) as [-> ->].
    split; reflexivity.
Qed.

Lemma to_int_not_nil (z : Z) :
  Z.to_int z <> Decimal.Pos Decimal.Nil
  /\ Z.to_int z <> Decimal.Neg Decimal.Nil.
Proof.
  destruct z as [|p|p]; cbn [Z.to_int]; split; try discriminate;
    intros H; injection H as H;
    apply (DecimalPos.Unsigned.to_uint_nonnil p H).
Qed.

(** [strconv.Itoa] writes different numbers differently. *)
Lemma Itoa_inj (a b : Z) : strconv.Itoa a = strconv.Itoa b -> a = b.
Proof.
  unfold strconv.Itoa. intros H.
  apply (f_equal NilZero.int_of_string) in H.
  destruct (to_int_not_nil a) as [Ha1 Ha2].
  destruct (to_int_not_nil b) as [Hb1 Hb2].
  rewrite !NilZero.isi in H by assumption.
  injection H as H. apply DecimalZ.to_int_inj. exact H.
Qed.

Lemma string_of_uint_length (d : Decimal.uint) :
  (1 <= String.length (NilZero.string_of_uint d))%nat.
Proof.
  destruct d; cbn; lia.
Qed.

(** The decimal text of a number has fewer than two bytes only for the
    numbers 0 to 9. *)
Lemma Itoa_short (year : Z) :
  (String.length (strconv.Itoa year) < 2)%nat -> 0 <= year <= 9.
Proof.
  unfold strconv.Itoa. destruct year as [|p|p]; cbn [Z.to_int].
  - lia.
  - pose proof (DecimalPos.Unsigned.of_to p) as Hp.
    destruct (Pos.to_uint p) as [|d|d|d|d|d|d|d|d|d|d];
      cbn [NilZero.string_of_int NilZero.string_of_uint
           NilEmpty.string_of_uint String.length];
      intros Hlen;
      try (destruct d; cbn in Hlen; try lia;
           vm_compute in Hp; try discriminate Hp;
           injection Hp as <-; lia).
    vm_compute in Hp. discriminate Hp.
  - cbn [NilZero.string_of_int String.length]. intros Hlen.
    pose proof (string_of_uint_length (Pos.to_uint p)). lia.
Qed.

(** X13: [generateUrl] panics, on its slice expression, exactly for the
    years 0 to 9, whose decimal text has a single byte; for every other
    year, negative ones included, it returns an address. *)
Theorem generateUrl_panics_iff (station : WeatherStation) (year : Z) :
  (0 <= year <= 9 ->
   generateUrl station year = Panicked "slice bounds out of range")
  /\ (year < 0 \/ 9 < year ->
      exists url, generateUrl station year = Returned url).
Proof.
  split.
  - intros Hyear. unfold generateUrl.
    assert (Hcases : year = 0 \/ year = 1 \/ year = 2 \/ year = 3
                     \/ year = 4 \/ year = 5 \/ year = 6 \/ year = 7
                     \/ year = 8 \/ year = 9) by lia.
    repeat (destruct Hcases as [->|Hcases]; [reflexivity|]).
    subst year. reflexivity.
  - intros Hyear. unfold generateUrl, lastTwo.
    destruct (Nat.ltb (String.length (strconv.Itoa year)) 2) eqn:Hlen.
    + apply Nat.ltb_lt in Hlen. apply Itoa_short in Hlen. lia.
    + eexists. reflexivity.
Qed.

(** The two digits of a number from 0 to 99. *)
Lemma pad2_spec (n : Z) :
  0 <= n <= 99 ->
  String.length (pad2 n) = 2%nat /\ strconv.digits (pad2 n) 0 = Some n.
Proof.
  intros Hn.
  assert (Hk : exists k, (k < 100)%nat /\ n = Z.of_nat k)
    by (exists (Z.to_nat n); lia).
  destruct Hk as (k & Hk & ->).
  do 100 (destruct k as [|k]; [vm_compute; split; reflexivity|]).
  lia.
Qed.

(** X14: for the years the entry point lets through, different
    stations or different years never share an address: the address
    determines both the station code and the year. *)
Theorem generateUrl_injective (s1 s2 : WeatherStation) (y1 y2 : Z) :
  2003 <= y1 <= 2099 ->
  2003 <= y2 <= 2099 ->
  generateUrl s1 y1 = generateUrl s2 y2 ->
  s1 = s2 /\ y1 = y2.
Proof.
  intros Hy1 Hy2. unfold generateUrl.
  rewrite !lastTwo_year by assumption.
  intros H.
  assert (Hbody :
    (urlPrefix ++ strconv.Itoa s1 ++ pad2 (y1 mod 100) ++ urlSuffix)%string
    = (urlPrefix ++ strconv.Itoa s2 ++ pad2 (y2 mod 100) ++ urlSuffix)%string)
    by congruence.
  clear H. apply string_append_inv_head in Hbody. rename Hbody into H.
  pose proof (Z.mod_pos_bound y1 100 ltac:(lia)) as Hm1.
  pose proof (Z.mod_pos_bound y2 100 ltac:(lia)) as Hm2.
  destruct (pad2_spec (y1 mod 100) ltac:(lia)) as [Hlen1 Hdig1].
  destruct (pad2_spec (y2 mod 100) ltac:(lia)) as [Hlen2 Hdig2].
  apply string_append_inv_tail in H.
  - destruct H as [Hs Hy]. split; [apply Itoa_inj; exact Hs|].
    apply string_append_inv_tail in Hy; [|reflexivity].
    destruct Hy as [Hy _]. rewrite Hy in Hdig1.
    rewrite Hdig1 in Hdig2. injection Hdig2 as Hmod.
    clear - Hy1 Hy2 Hmod. Z.div_mod_to_equations. lia.
  - rewrite !string_length_append, Hlen1, Hlen2. reflexivity.
Qed.

(** The last two bytes of the text of a year of two to four digits. *)
Lemma lastTwo_upto_9999 (year : Z) :
  10 <= year <= 9999 ->
  lastTwo (strconv.Itoa year) = Returned (pad2 (year mod 100)).
Proof.
  intros Hyear.
  assert (Hall :
    forallb (fun k =>
               match lastTwo (strconv.Itoa (Z.of_nat k)) with
               | Returned yy => String.eqb yy (pad2 (Z.of_nat k mod 100))
               | Panicked _ => false
               end) (seq 10 (Z.to_nat 9990)) = true)
    by (vm_compute; reflexivity).
  rewrite forallb_forall in Hall.
  specialize (Hall (Z.to_nat year)).
  rewrite Z2Nat.id in Hall by lia.
  destruct (lastTwo (strconv.Itoa year)) as [yy|msg].
  - f_equal. apply String.eqb_eq. apply Hall. apply in_seq. lia.
  - discriminate Hall. apply in_seq. lia.
Qed.

(** X15: the address depends on the year only through its last two
    digits: for one station, two years from 10 to 9999 that agree
    modulo 100 (2024 and 2124, say) give the same address. *)
Theorem generateUrl_century (station : WeatherStation) (y1 y2 : Z) :
  10 <= y1 <= 9999 ->
  10 <= y2 <= 9999 ->
  y1 mod 100 = y2 mod 100 ->
  generateUrl station y1 = generateUrl station y2.
Proof.
  intros Hy1 Hy2 Hmod. unfold generateUrl.
  rewrite !lastTwo_upto_9999 by assumption.
  rewrite Hmod. reflexivity.
Qed.

(** X16: the hour is not range-checked either: in a zone of fixed
    offset, hour [hour + 24] of one day resolves to the same instant as
    hour [hour] of the day after. *)
Theorem WeatherDataDate_hour_carries (name : string)
  (offset year dayOfYear hour : Z) :
  LoadLocation "America/Phoenix" = Some (time.FixedZone name offset) ->
  -106750 <= dayOfYear < 106752 ->
  resolve year dayOfYear (hour + 24) = resolve year (dayOfYear + 1) hour.
Proof.
  intros Htz Hday. unfold resolve.
  rewrite !(WeatherDataDate_fixed_zone name offset _ Htz) by (cbn; lia).
  cbn [observation setInt zeroData Year Day Hour].
  f_equal. lia.
Qed.

End Pipeline.

Arguments Year {float32} _.
Arguments Day {float32} _.
Arguments Hour {float32} _.
Arguments AirTemperature {float32} _.
Arguments RelativeHumidity {float32} _.
Arguments VaporPressureDeficit {float32} _.
Arguments SolarRadiation {float32} _.
Arguments Precipitation {float32} _.
Arguments SoilTempFourInches {float32} _.
Arguments SoilTempTwentyInches {float32} _.
Arguments WindSpeedAverage {float32} _.
Arguments WindMagnitudeVector {float32} _.
Arguments WindDirectionVector {float32} _.
Arguments WindDirectionStdDev {float32} _.
Arguments WindSpeedMax {float32} _.
Arguments Evapotranspiration {float32} _.
Arguments VaporPressureActual {float32} _.
Arguments DewpointHourAverage {float32} _.
Arguments Time {float32} _.

(** ** The theorems at work *)

Local Notation decode :=
  (parseHourlyWeatherData Decimal.t Decimal.zero Decimal.parse).
Local Notation assemble :=
  (ReadHourlyData Decimal.t Decimal.zero Decimal.parse).
Local Notation fails :=
  (rowFailure Decimal.t Decimal.zero Decimal.parse).
Local Notation bad_fields := (offending Decimal.t Decimal.parse).
Local Notation well_formed := (wellFormed Decimal.t Decimal.parse).
Local Notation resolve_at := (resolve Decimal.t Decimal.zero).

(** Station 12 and year 2024. *)
Lemma generateUrl_station_then_year_witness :
  2003 <= 2024 <= 2099
  /\ generateUrl PhoenixGreenway 2024
     = Returned (urlPrefix ++ strconv.Itoa PhoenixGreenway
                 ++ pad2 (2024 mod 100) ++ urlSuffix)%string.
Proof.
  split; [lia|].
  apply (generateUrl_station_then_year PhoenixGreenway 2024). lia.
Defined.

(** The address of station 12 for 2024 does not end in [2412rh.txt]:
    the year suffix does not come before the station code. *)
Lemma generateUrl_year_not_first :
  ~ (exists url,
        generateUrl PhoenixGreenway 2024 = Returned url
        /\ hasSuffix url "2412rh.txt" = true).
Proof.
  intros (url & Hurl & Hsuffix).
  vm_compute in Hurl. injection Hurl as <-.
  vm_compute in Hsuffix. discriminate Hsuffix.
Qed.



(** The last day of 2023, at 23:00, on a host that knows the zone. *)
Lemma WeatherDataDate_day_offset_witness :
  tzdata "America/Phoenix" = Some MST
  /\ resolve_at tzdata 2023 365 23
     = (time.Date 2023 12 31 23 0 0 0 MST, None).
Proof.
  split; [reflexivity|].
  apply (proj2 (proj2 (WeatherDataDate_day_offset
                         Decimal.t Decimal.zero tzdata MST eq_refl))
           eq_refl).
Defined.

(** Day 106753: the product of 24 hours by 106752 leaves the range of
    [time.Duration], and the instant returned is not 106752 days after
    the first of the year. *)
Lemma WeatherDataDate_day_offset_overflow :
  resolve_at tzdata 2023 106753 0
  <> (time.Add (time.Date 2023 1 1 0 0 0 0 MST)
        ((106753 - 1) * (24 * time.Hour)), None).
Proof.
  vm_compute. discriminate.
Qed.

(** A row whose fourth field is the text [n/a]. *)
Lemma parseHourlyWeatherData_type_error_witness :
  List.length rowBadTemp = 18%nat
  /\ bad_fields rowBadTemp = [3%nat]
  /\ decode rowBadTemp
     = (zeroData Decimal.t Decimal.zero, Some (ErrParseFloat32 "n/a")).
Proof.
  split; [reflexivity|]. split; [reflexivity|].
  apply (parseHourlyWeatherData_type_error
           Decimal.t Decimal.zero Decimal.parse rowBadTemp 3 []);
    reflexivity.
Defined.

(** No reading of the decoder's errors tells which field was at fault:
    a bad first field and a bad second field holding the same text are
    rejected with the same error. *)
Lemma parseHourlyWeatherData_error_without_field :
  ~ (exists fieldOf : error -> nat,
        forall record j later,
          List.length record = 18%nat ->
          bad_fields record = j :: later ->
          exists d e, decode record = (d, Some e) /\ fieldOf e = j).
Proof.
  intros (fieldOf & Hnames).
  destruct (Hnames rowBadYear 0%nat [] eq_refl eq_refl)
    as (d0 & e0 & Hdecode0 & Hfield0).
  destruct (Hnames rowBadDay 1%nat [] eq_refl eq_refl)
    as (d1 & e1 & Hdecode1 & Hfield1).
  vm_compute in Hdecode0. vm_compute in Hdecode1.
  injection Hdecode0 as _ <-. injection Hdecode1 as _ <-.
  rewrite Hfield0 in Hfield1. discriminate Hfield1.
Qed.

(** A row of 17 fields. *)
Lemma parseHourlyWeatherData_shape_witness :
  List.length row17 <> 18%nat
  /\ decode row17
     = (zeroData Decimal.t Decimal.zero, Some (ErrFieldListLength 17))
  /\ coercions Decimal.t Decimal.zero Decimal.parse row17 = [].
Proof.
  assert (Hlen : List.length row17 <> 18%nat) by (cbn; lia).
  split; [exact Hlen|].
  apply (parseHourlyWeatherData_shape
           Decimal.t Decimal.zero Decimal.parse row17 Hlen).
Defined.

(** Station 12 off line: 1999 is refused with nothing logged, 2024 is
    located and requested. *)
Lemma DownloadHourlyData_year_range_witness :
  (1999 < 2003 \/ 2099 < 1999)
  /\ DownloadHourlyData Decimal.t Decimal.zero Decimal.parse tzdata offline
       PhoenixGreenway 1999 []
     = (Returned ([], Some (ErrInvalidYear 1999)), [])
  /\ 2003 <= 2024 <= 2099
  /\ exists url,
      generateUrl PhoenixGreenway 2024 = Returned url
      /\ snd (DownloadHourlyData Decimal.t Decimal.zero Decimal.parse
                tzdata offline PhoenixGreenway 2024 [])
         = [] ++ [UrlBuilt url; Requested url]
      /\ fst (DownloadHourlyData Decimal.t Decimal.zero Decimal.parse
                tzdata offline PhoenixGreenway 2024 [])
         = Returned match offline url with
                    | inl body => assemble tzdata body
                    | inr msg => ([], Some (ErrHttp msg))
                    end.
Proof.
  assert (Hout : 1999 < 2003 \/ 2099 < 1999) by lia.
  assert (Hin : 2003 <= 2024 <= 2099) by lia.
  split; [exact Hout|]. split.
  - apply (proj1 (DownloadHourlyData_year_range
                    Decimal.t Decimal.zero Decimal.parse tzdata offline
                    PhoenixGreenway 1999 []) Hout).
  - split; [exact Hin|].
    apply (proj2 (DownloadHourlyData_year_range
                    Decimal.t Decimal.zero Decimal.parse tzdata offline
                    PhoenixGreenway 2024 []) Hin).
Defined.

(** The fields of [row1], each at its own place. *)
Lemma parseHourlyWeatherData_positional_witness :
  decode row1 = (fst (decode row1), None)
  /\ strconv.Atoi (nth 0 row1 EmptyString) = Some (Year (fst (decode row1)))
  /\ strconv.Atoi (nth 1 row1 EmptyString) = Some (Day (fst (decode row1)))
  /\ strconv.Atoi (nth 2 row1 EmptyString) = Some (Hour (fst (decode row1)))
  /\ Decimal.parse (nth 3 row1 EmptyString)
     = Some (AirTemperature (fst (decode row1)))
  /\ Decimal.parse (nth 17 row1 EmptyString)
     = Some (DewpointHourAverage (fst (decode row1))).
Proof.
  assert (Hdecode : decode row1 = (fst (decode row1), None)) by reflexivity.
  split; [exact Hdecode|].
  pose proof (parseHourlyWeatherData_positional
                Decimal.t Decimal.zero Decimal.parse row1
                (fst (decode row1)) Hdecode) as Hfields.
  repeat split; apply Hfields.
Defined.

(** Three rows, the first of them twice. *)
Lemma ReadHourlyData_wellFormed_witness :
  tzdata "America/Phoenix" = Some MST
  /\ Forall well_formed [row1; row2; row1]
  /\ assemble tzdata (map csv.Lexed [row1; row2; row1])
     = (map (assembled Decimal.t Decimal.zero Decimal.parse tzdata)
          [row1; row2; row1], None)
  /\ List.length
       (map (assembled Decimal.t Decimal.zero Decimal.parse tzdata)
          [row1; row2; row1]) = 3%nat.
Proof.
  assert (Hrows : Forall well_formed [row1; row2; row1])
    by (repeat constructor).
  split; [reflexivity|]. split; [exact Hrows|].
  destruct (ReadHourlyData_wellFormed
              Decimal.t Decimal.zero Decimal.parse tzdata MST
              [row1; row2; row1] eq_refl Hrows) as (Hdata & Hlen & _).
  split; [exact Hdata | exact Hlen].
Defined.

(** On a host without the zone a well-formed one-row stream yields the
    time-zone error and no record. *)
Lemma ReadHourlyData_wellFormed_needs_zone :
  Forall well_formed [row1]
  /\ assemble no_tzdata (map csv.Lexed [row1]) = ([], Some ErrTimezone).
Proof.
  split; [repeat constructor | reflexivity].
Qed.

(** Day 367 of 2023, a year of 365 days, at midnight. *)
Lemma WeatherDataDate_unchecked_day_witness :
  tzdata "America/Phoenix" = Some (time.FixedZone "MST" (-7 * 3600))
  /\ 0 <= 0 <= 23
  /\ daysIn 2023 < 367 <= daysIn 2023 + 365
  /\ exists t,
      resolve_at tzdata 2023 367 0 = (t, None)
      /\ time.inYear (time.FixedZone "MST" (-7 * 3600)) (2023 + 1) t.
Proof.
  assert (Hhour : 0 <= 0 <= 23) by lia.
  assert (Hday : daysIn 2023 < 367 <= daysIn 2023 + 365)
    by (vm_compute; split; [reflexivity | discriminate]).
  split; [reflexivity|]. split; [exact Hhour|]. split; [exact Hday|].
  apply (proj1 (proj1 (proj2 (proj2 (WeatherDataDate_unchecked_day
                                       Decimal.t Decimal.zero tzdata)))
                  "MST" (-7 * 3600) 2023 367 0 eq_refl Hhour) Hday).
Defined.

(** Day 0 is outside 1..366 and resolves, but to the last day of the
    year before, not to an instant of the following year. *)
Lemma WeatherDataDate_day_zero_previous_year :
  resolve_at tzdata 2023 0 0 = (time.Date 2022 12 31 0 0 0 0 MST, None)
  /\ ~ (exists t,
           resolve_at tzdata 2023 0 0 = (t, None)
           /\ time.inYear MST (2023 + 1) t).
Proof.
  split; [reflexivity|].
  intros (t & Ht & Hin).
  vm_compute in Ht. injection Ht as <-.
  destruct Hin as [Hlow _]. vm_compute in Hlow. apply Hlow. reflexivity.
Qed.

(** Two good rows, then a row of 17 fields. *)
Lemma ReadHourlyData_field_count_witness :
  Forall (fun r => fails tzdata r = None) [row1; row2]
  /\ List.length row17 <> List.length row1
  /\ assemble tzdata
       (map csv.Lexed [row1; row2] ++ csv.Lexed row17 :: [csv.Lexed row1])
     = ([], Some (ErrCsv csv.ErrFieldCount)).
Proof.
  assert (Hgood : Forall (fun r => fails tzdata r = None) [row1; row2])
    by (repeat constructor).
  assert (Hlen : List.length row17 <> List.length row1) by (cbn; lia).
  split; [exact Hgood|]. split; [exact Hlen|].
  apply (proj1 (ReadHourlyData_field_count
                  Decimal.t Decimal.zero Decimal.parse tzdata)
           row1 [row2] row17 [csv.Lexed row1] Hgood Hlen).
Defined.

(** A first row of 17 fields followed by a row of 18: the second row's
    count differs from the first row's, yet the call fails with the
    decoder's shape error, not with the reader's; and the shape error
    comes although a row of the stream has 18 fields. *)
Lemma ReadHourlyData_shape_error_first_row :
  List.length row1 <> List.length row17
  /\ List.length row1 = 18%nat
  /\ assemble tzdata [csv.Lexed row17; csv.Lexed row1]
     = ([], Some (ErrFieldListLength 17))
  /\ assemble tzdata [csv.Lexed row17; csv.Lexed row1]
     <> ([], Some (ErrCsv csv.ErrFieldCount)).
Proof.
  split; [cbn; lia|]. split; [reflexivity|].
  split; [reflexivity | vm_compute; discriminate].
Qed.

(** ** The further properties at work *)

(** [rowBadTemp] is refused with the zero record and the [float32]
    error of its fourth field. *)
Lemma parseHourlyWeatherData_errors_witness :
  decode rowBadTemp
  = (zeroData Decimal.t Decimal.zero, Some (ErrParseFloat32 "n/a"))
  /\ (zeroData Decimal.t Decimal.zero = zeroData Decimal.t Decimal.zero
      /\ ((List.length rowBadTemp <> 18%nat
           /\ ErrParseFloat32 "n/a"
              = ErrFieldListLength (List.length rowBadTemp))
          \/ (List.length rowBadTemp = 18%nat
              /\ exists j later,
                  bad_fields rowBadTemp = j :: later
                  /\ (j < 3)%nat
                  /\ ErrParseFloat32 "n/a"
                     = ErrParseInt (nth j rowBadTemp EmptyString))
          \/ (List.length rowBadTemp = 18%nat
              /\ exists j later,
                  bad_fields rowBadTemp = j :: later
                  /\ (3 <= j < 18)%nat
                  /\ ErrParseFloat32 "n/a"
                     = ErrParseFloat32 (nth j rowBadTemp EmptyString)))).
Proof.
  split; [reflexivity|].
  exact (parseHourlyWeatherData_errors Decimal.t Decimal.zero Decimal.parse
           rowBadTemp (zeroData Decimal.t Decimal.zero)
           (ErrParseFloat32 "n/a") eq_refl).
Defined.

(** On [rowBadTemp] the first four fields are handed to [strconv], the
    other fourteen are not. *)
Lemma coercions_fail_fast_witness :
  List.length rowBadTemp = 18%nat
  /\ coercions Decimal.t Decimal.zero Decimal.parse rowBadTemp
     = map coercionAt
         (seq 0 match bad_fields rowBadTemp with
                | [] => 18
                | j :: _ => S j
                end).
Proof.
  split; [reflexivity|].
  apply (coercions_fail_fast Decimal.t Decimal.zero Decimal.parse
           rowBadTemp eq_refl).
Defined.

(** The dataset of a two-row stream. *)
Lemma ReadHourlyData_dataset_invariant_witness :
  assemble tzdata [csv.Lexed row1; csv.Lexed row2]
  = (fst (assemble tzdata [csv.Lexed row1; csv.Lexed row2]), None)
  /\ List.length (fst (assemble tzdata [csv.Lexed row1; csv.Lexed row2]))
     = List.length [csv.Lexed row1; csv.Lexed row2].
Proof.
  assert (Hok : assemble tzdata [csv.Lexed row1; csv.Lexed row2]
                = (fst (assemble tzdata [csv.Lexed row1; csv.Lexed row2]),
                   None)) by reflexivity.
  split; [exact Hok|].
  apply (proj1 (ReadHourlyData_dataset_invariant
                  Decimal.t Decimal.zero Decimal.parse tzdata
                  [csv.Lexed row1; csv.Lexed row2] _ Hok)).
Defined.

(** A good row, then a record with a stray quote. *)
Lemma ReadHourlyData_reader_error_witness :
  Forall (fun r => fails tzdata r = None) [row1]
  /\ assemble tzdata
       (map csv.Lexed [row1]
        ++ csv.Broken ["2023"] (csv.ErrSyntax "bare quote in field")
             :: [csv.Lexed row2])
     = ([], Some (ErrCsv (csv.ErrSyntax "bare quote in field"))).
Proof.
  assert (Hgood : Forall (fun r => fails tzdata r = None) [row1])
    by (repeat constructor).
  split; [exact Hgood|].
  apply (ReadHourlyData_reader_error
           Decimal.t Decimal.zero Decimal.parse tzdata
           [row1] ["2023"] (csv.ErrSyntax "bare quote in field")
           [csv.Lexed row2] Hgood).
Defined.

(** 29 February 2024 is day 60 of its year. *)
Lemma WeatherDataDate_calendar_date_witness :
  tzdata "America/Phoenix" = Some (time.FixedZone "MST" (-7 * 3600))
  /\ 1 <= 2 <= 12 /\ 1 <= 29 <= 31
  /\ ordinalDay 2024 2 29 = 60
  /\ resolve_at tzdata 2024 (ordinalDay 2024 2 29) 6
     = (time.Date 2024 2 29 6 0 0 0 (time.FixedZone "MST" (-7 * 3600)),
        None).
Proof.
  assert (Hmonth : 1 <= 2 <= 12) by lia.
  assert (Hday : 1 <= 29 <= 31) by lia.
  split; [reflexivity|]. split; [exact Hmonth|]. split; [exact Hday|].
  split; [reflexivity|].
  apply (WeatherDataDate_calendar_date Decimal.t Decimal.zero tzdata
           "MST" (-7 * 3600) 2024 2 29 6 eq_refl Hmonth Hday).
Defined.

(** The last hour of 2024, a leap year. *)
Lemma WeatherDataDate_within_year_witness :
  tzdata "America/Phoenix" = Some (time.FixedZone "MST" (-7 * 3600))
  /\ 1 <= 366 <= daysIn 2024 /\ 0 <= 23 <= 23
  /\ exists t,
      resolve_at tzdata 2024 366 23 = (t, None)
      /\ time.inYear (time.FixedZone "MST" (-7 * 3600)) 2024 t.
Proof.
  assert (Hday : 1 <= 366 <= daysIn 2024)
    by (vm_compute; split; discriminate).
  assert (Hhour : 0 <= 23 <= 23) by lia.
  split; [reflexivity|]. split; [exact Hday|]. split; [exact Hhour|].
  apply (WeatherDataDate_within_year Decimal.t Decimal.zero tzdata
           "MST" (-7 * 3600) 2024 366 23 eq_refl Hday Hhour).
Defined.

(** The last hour of 2023 comes before the first hour of 2024. *)
Lemma WeatherDataDate_increasing_witness :
  tzdata "America/Phoenix" = Some (time.FixedZone "MST" (-7 * 3600))
  /\ 1 <= 365 <= daysIn 2023 /\ 0 <= 23 <= 23
  /\ 1 <= 1 <= daysIn 2024 /\ 0 <= 0 <= 23
  /\ fst (resolve_at tzdata 2023 365 23) < fst (resolve_at tzdata 2024 1 0).
Proof.
  assert (Hd1 : 1 <= 365 <= daysIn 2023) by (vm_compute; split; discriminate).
  assert (Hh1 : 0 <= 23 <= 23) by lia.
  assert (Hd2 : 1 <= 1 <= daysIn 2024) by (vm_compute; split; discriminate).
  assert (Hh2 : 0 <= 0 <= 23) by lia.
  split; [reflexivity|]. split; [exact Hd1|]. split; [exact Hh1|].
  split; [exact Hd2|]. split; [exact Hh2|].
  apply (WeatherDataDate_increasing Decimal.t Decimal.zero tzdata
           "MST" (-7 * 3600) 2023 365 23 2024 1 0 eq_refl Hd1 Hh1 Hd2 Hh2).
  left. lia.
Defined.

(** Day 106753 of 2023, whose offset does not fit. *)
Lemma WeatherDataDate_wraps_witness :
  tzdata "America/Phoenix" = Some MST
  /\ exists t k,
      resolve_at tzdata 2023 106753 0 = (t, None)
      /\ - 2 ^ 63 <= t - time.Date 2023 1 1 0 0 0 0 MST < 2 ^ 63
      /\ t = time.Date 2023 1 1 0 0 0 0 MST
             + (106753 - 1) * (24 * time.Hour) + k * 2 ^ 64.
Proof.
  split; [reflexivity|].
  apply (WeatherDataDate_wraps Decimal.t tzdata MST
           (observation Decimal.t Decimal.zero 2023 106753 0) eq_refl).
Defined.

(** Year 5 panics, year -5 does not. *)
Lemma generateUrl_panics_iff_witness :
  0 <= 5 <= 9
  /\ generateUrl Tucson 5 = Panicked "slice bounds out of range"
  /\ (-5 < 0 \/ 9 < -5)
  /\ exists url, generateUrl Tucson (-5) = Returned url.
Proof.
  assert (Hin : 0 <= 5 <= 9) by lia.
  assert (Hout : -5 < 0 \/ 9 < -5) by lia.
  split; [exact Hin|]. split.
  - apply (proj1 (generateUrl_panics_iff Tucson 5) Hin).
  - split; [exact Hout|].
    apply (proj2 (generateUrl_panics_iff Tucson (-5)) Hout).
Defined.

(** The address of station 1 for 2024 is that of no other pair. *)
Lemma generateUrl_injective_witness :
  2003 <= 2024 <= 2099
  /\ generateUrl Tucson 2024 = generateUrl Tucson 2024
  /\ (Tucson = Tucson /\ 2024 = 2024).
Proof.
  assert (Hyear : 2003 <= 2024 <= 2099) by lia.
  split; [exact Hyear|]. split; [reflexivity|].
  exact (generateUrl_injective Tucson Tucson 2024 2024 Hyear Hyear eq_refl).
Defined.

(** 2024 and 2124. *)
Lemma generateUrl_century_witness :
  10 <= 2024 <= 9999 /\ 10 <= 2124 <= 9999
  /\ 2024 mod 100 = 2124 mod 100
  /\ generateUrl PhoenixGreenway 2024 = generateUrl PhoenixGreenway 2124.
Proof.
  assert (H1 : 10 <= 2024 <= 9999) by lia.
  assert (H2 : 10 <= 2124 <= 9999) by lia.
  split; [exact H1|]. split; [exact H2|]. split; [reflexivity|].
  apply (generateUrl_century PhoenixGreenway 2024 2124 H1 H2 eq_refl).
Defined.

(** Hour 24 of day 59 of 2023 is hour 0 of day 60. *)
Lemma WeatherDataDate_hour_carries_witness :
  tzdata "America/Phoenix" = Some (time.FixedZone "MST" (-7 * 3600))
  /\ -106750 <= 59 < 106752
  /\ resolve_at tzdata 2023 59 (0 + 24) = resolve_at tzdata 2023 (59 + 1) 0.
Proof.
  assert (Hday : -106750 <= 59 < 106752) by lia.
  split; [reflexivity|]. split; [exact Hday|].
  apply (WeatherDataDate_hour_carries Decimal.t Decimal.zero tzdata
           "MST" (-7 * 3600) 2023 59 0 eq_refl Hday).
Defined.
